(** * corner_navigator.py: the waypoint sequencer of the TurtleBot3 exploration node

    A shallow embedding of [scripts/corner_navigator.py].  The class
    [CornerNavigator] becomes a record of its attributes, its methods become
    functions in a state-and-exception monad over that record, and everything
    the node does to the outside (the log file, the move_base action client,
    rospy's sleeps) is recorded, in order, in a trace of events.  What the
    outside does to the node (clock readings, action results, odometry
    messages, the shutdown signal) is an explicit input, a [run_env].

    The two activities beside the sequencer are placed where they can be
    observed.  The odometry callbacks run between the sequencer's steps;
    since only [log_waypoint] reads the cell they fill, the messages are
    delivered before each of its calls, from the first one on (what arrives
    while the constructor runs is not modelled).  The shutdown signal
    arrives while the node blocks: in the warm-up, in a wait for a result,
    in a pause, or in [rospy.spin]; rospy then runs the registered hook,
    once, before the blocking call returns or raises.  The console lines of
    [rospy.loginfo], [logwarn] and [logerr] are not part of the trace. *)

From Stdlib Require Import ZArith List String Ascii Bool Lia Floats DecimalString.
Import ListNotations.

Set Warnings "-inexact-float".

Local Open Scope string_scope.

(** ** Python values *)

Module Py.

(** Python's [float] is IEEE 754 binary64, which is Rocq's primitive
    [float]; Python's [int] is unbounded. *)

(** [float(n)] for an [int]; the integers of this program (list lengths,
    counters bounded by them, clock fields) lie far below 2^63, where
    [of_uint63] is exact rounding to nearest. *)
Definition float_of_int (n : Z) : float :=
  if (n <? 0)%Z
  then PrimFloat.opp (PrimFloat.of_uint63 (Uint63.of_Z (- n)))
  else PrimFloat.of_uint63 (Uint63.of_Z n).

(** [s.ljust(w)], the alignment [<] of a format field: pad with spaces on
    the right up to width [w], never truncate. *)
Fixpoint spaces (n : nat) : string :=
  match n with
  | O => EmptyString
  | S k => String " " (spaces k)
  end.

Definition ljust (w : nat) (s : string) : string :=
  s ++ spaces (w - String.length s).

(** [c * n] for a one-character string [c]. *)
Fixpoint repeat_char (c : ascii) (n : nat) : string :=
  match n with
  | O => EmptyString
  | S k => String c (repeat_char c k)
  end.

(** [s[:n]] *)
Definition slice_to (n : nat) (s : string) : string := substring 0 n s.

Definition digits (n : N) : string := NilZero.string_of_uint (N.to_uint n).

(** [str(n)], the [{}] of a format string, for an [int]. *)
Definition str_int (n : Z) : string := NilZero.string_of_int (Z.to_int n).

(** The integer nearest to [m * 2^e], ties to even: the rounding of the
    fixed-point presentation types. *)
Definition round_half_even (m : N) (e : Z) : N :=
  if (0 <=? e)%Z then (m * 2 ^ Z.to_N e)%N
  else
    let den := (2 ^ Z.to_N (- e))%N in
    let q := (m / den)%N in
    let r := (m mod den)%N in
    match (2 * r ?= den)%N with
    | Lt => q
    | Gt => (q + 1)%N
    | Eq => if N.even q then q else (q + 1)%N
    end.

(** Decimal digits of [n] with a point before the last [p] of them. *)
Definition fixed_point (p : nat) (n : N) : string :=
  let ds := digits n in
  let ds := repeat_char "0" (S p - String.length ds) ++ ds in
  let k := (String.length ds - p)%nat in
  match p with
  | O => ds
  | _ => substring 0 k ds ++ "." ++ substring k p ds
  end.

Definition sign (negative : bool) : string :=
  if negative then "-" else EmptyString.

(** [format(x, ".pf")]: the exact binary value of [x], correctly rounded to
    [p] decimals; the sign is kept on negative zero and on negative values
    that round to zero. *)
Definition format_f (p : nat) (x : float) : string :=
  match Prim2SF x with
  | S754_nan => "nan"
  | S754_infinity s => if s then "-inf" else "inf"
  | S754_zero s => sign s ++ fixed_point p 0
  | S754_finite s m e =>
      sign s ++ fixed_point p (round_half_even (Npos m * 10 ^ N.of_nat p) e)
  end.

End Py.

(** ** The ROS messages and handles the node touches *)

Module Ros.

(** [rospy.Time] and [rospy.Duration]: whole seconds and nanoseconds. *)
Record rostime := { secs : Z; nsecs : Z }.

(** [to_sec()] *)
Definition to_sec (t : rostime) : float :=
  (Py.float_of_int (secs t) + Py.float_of_int (nsecs t) / 1e9)%float.

(** [t1 - t2], a Duration, with the nanoseconds brought back into
    [0, 10^9). *)
Definition time_sub (t1 t2 : rostime) : rostime :=
  let ns := ((secs t1 - secs t2) * 1000000000 + (nsecs t1 - nsecs t2))%Z in
  {| secs := (ns / 1000000000)%Z; nsecs := (ns mod 1000000000)%Z |}.

(** [nav_msgs/Odometry]; of a message the node reads only
    [pose.pose.position.x] and [pose.pose.position.y]. *)
Record Odometry := { position_x : float; position_y : float }.

Record Point := { px : float; py : float; pz : float }.
Record Quaternion := { qx : float; qy : float; qz : float; qw : float }.

(** [move_base_msgs/MoveBaseGoal], that is its [target_pose]. *)
Record MoveBaseGoal := {
  frame_id : string;
  stamp : rostime;
  position : Point;
  orientation : Quaternion
}.

(** [actionlib.GoalStatus], the status vocabulary of an action goal. *)
Inductive GoalStatus :=
| PENDING | ACTIVE | PREEMPTED | SUCCEEDED | ABORTED
| REJECTED | PREEMPTING | RECALLING | RECALLED | LOST.

Definition status_eqb (a b : GoalStatus) : bool :=
  match a, b with
  | PENDING, PENDING | ACTIVE, ACTIVE | PREEMPTED, PREEMPTED
  | SUCCEEDED, SUCCEEDED | ABORTED, ABORTED | REJECTED, REJECTED
  | PREEMPTING, PREEMPTING | RECALLING, RECALLING
  | RECALLED, RECALLED | LOST, LOST => true
  | _, _ => false
  end.

End Ros.
Import Ros.

(** ** The log file *)

Definition nl : string := String (ascii_of_nat 10) EmptyString.

(** One row of the log, as [log_waypoint] assembles it: the arguments of its
    format call.  [actual] is the odometry position, when one is known. *)
Record log_entry := {
  timestamp : float;
  name : string;
  target_x : float;
  target_y : float;
  status : string;
  actual : option (float * float)
}.

(** [" | Actual: ({:.2f}, {:.2f})".format(actual_x, actual_y)], or the empty
    string. *)
Definition odom_info (a : option (float * float)) : string :=
  match a with
  | Some (actual_x, actual_y) =>
      " | Actual: (" ++ Py.format_f 2 actual_x ++ ", "
      ++ Py.format_f 2 actual_y ++ ")"
  | None => EmptyString
  end.

(** ["{:<12.2f} | {:<30} | {:<8.2f} | {:<8.2f} | {:<15}{}\n".format(...)] *)
Definition format_entry (r : log_entry) : string :=
  Py.ljust 12 (Py.format_f 2 (timestamp r)) ++ " | "
  ++ Py.ljust 30 (name r) ++ " | "
  ++ Py.ljust 8 (Py.format_f 2 (target_x r)) ++ " | "
  ++ Py.ljust 8 (Py.format_f 2 (target_y r)) ++ " | "
  ++ Py.ljust 15 (status r) ++ odom_info (actual r) ++ nl.

(** What one call of [log_file.write] writes: a row, or a line of the header,
    of the summary or of the shutdown marker. *)
Inductive written :=
| Entry (r : log_entry)
| Text (s : string).

Definition render (w : written) : string :=
  match w with
  | Entry r => format_entry r
  | Text s => s
  end.

(** ** Effects *)

(** What the node does to the outside, in the order it does it. *)
Inductive event :=
| MakeDirs (dir : string)
| OpenLog (path : string)
| LogWrite (w : written)
| LogFlush
| LogClose
| SendGoal (g : MoveBaseGoal)
| WaitForResult (timeout : float)
| CancelAllGoals
| Sleep (duration : float)
| Spin.

Inductive exn :=
| ROSInterruptException
| ValueError        (* I/O operation on closed file *)
| OSError
| AttributeError
| TypeError
| ZeroDivisionError.

Inductive result (A : Type) :=
| Ok (a : A)
| Raise (e : exn).
Arguments Ok {A} a.
Arguments Raise {A} e.

(** [x / n] for a [float] and an [int]: Python raises on the integer zero
    and divides by [float(n)] otherwise. *)
Definition truediv_int (x : float) (n : Z) : result float :=
  if (n =? 0)%Z then Raise ZeroDivisionError
  else Ok (x / Py.float_of_int n)%float.

(** A waypoint tuple [(x, y, waypoint_name, pause_duration)]. *)
Record waypoint := {
  wp_x : float;
  wp_y : float;
  wp_name : string;
  wp_pause : float
}.

(** An open or closed Python file object. *)
Record py_file := { path : string; closed : bool }.

(** The attributes of a [CornerNavigator], with rospy's shutdown hook list
    and shutdown flag. *)
Record CornerNavigator := {
  waypoints : list waypoint;
  current_odom : option Odometry;
  log_file : option py_file;
  waypoints_reached : Z;
  waypoints_failed : Z;
  start_time : option rostime;
  shutdown_hooks : bool;     (* self.shutdown_hook is registered *)
  is_shutdown : bool         (* rospy.is_shutdown() *)
}.

(** A computation takes the node to a result or an exception, a new state
    of the node, and the events it caused, oldest first. *)
Record outcome (A : Type) := {
  res : result A;
  after : CornerNavigator;
  effects : list event
}.
Arguments res {A} o.
Arguments after {A} o.
Arguments effects {A} o.

Definition M (A : Type) : Type := CornerNavigator -> outcome A.

Definition ret {A} (a : A) : M A :=
  fun s => {| res := Ok a; after := s; effects := [] |}.

Definition bind {A B} (m : M A) (k : A -> M B) : M B :=
  fun s =>
    match m s with
    | {| res := Ok a; after := s1; effects := ev1 |} =>
        match k a s1 with
        | {| res := r; after := s2; effects := ev2 |} =>
            {| res := r; after := s2; effects := ev1 ++ ev2 |}
        end
    | {| res := Raise e; after := s1; effects := ev1 |} =>
        {| res := Raise e; after := s1; effects := ev1 |}
    end.

Definition raise {A} (e : exn) : M A :=
  fun s => {| res := Raise e; after := s; effects := [] |}.

Definition of_result {A} (r : result A) : M A :=
  fun s => {| res := r; after := s; effects := [] |}.

Definition get : M CornerNavigator :=
  fun s => {| res := Ok s; after := s; effects := [] |}.

Definition modify (f : CornerNavigator -> CornerNavigator) : M unit :=
  fun s => {| res := Ok tt; after := f s; effects := [] |}.

Definition emit (e : event) : M unit :=
  fun s => {| res := Ok tt; after := s; effects := [e] |}.

Declare Scope py_scope.
Delimit Scope py_scope with py.
Notation "x <- m ;; k" := (bind m (fun x => k))
  (at level 61, m at next level, right associativity) : py_scope.
Notation "m ;; k" := (bind m (fun _ => k))
  (at level 61, right associativity) : py_scope.
Local Open Scope py_scope.

(** Attribute assignment. *)
Definition set_waypoints (v : list waypoint) (s : CornerNavigator) :=
  {| waypoints := v; current_odom := current_odom s; log_file := log_file s;
     waypoints_reached := waypoints_reached s;
     waypoints_failed := waypoints_failed s; start_time := start_time s;
     shutdown_hooks := shutdown_hooks s; is_shutdown := is_shutdown s |}.

Definition set_current_odom (v : option Odometry) (s : CornerNavigator) :=
  {| waypoints := waypoints s; current_odom := v; log_file := log_file s;
     waypoints_reached := waypoints_reached s;
     waypoints_failed := waypoints_failed s; start_time := start_time s;
     shutdown_hooks := shutdown_hooks s; is_shutdown := is_shutdown s |}.

Definition set_log_file (v : option py_file) (s : CornerNavigator) :=
  {| waypoints := waypoints s; current_odom := current_odom s; log_file := v;
     waypoints_reached := waypoints_reached s;
     waypoints_failed := waypoints_failed s; start_time := start_time s;
     shutdown_hooks := shutdown_hooks s; is_shutdown := is_shutdown s |}.

Definition set_waypoints_reached (v : Z) (s : CornerNavigator) :=
  {| waypoints := waypoints s; current_odom := current_odom s;
     log_file := log_file s; waypoints_reached := v;
     waypoints_failed := waypoints_failed s; start_time := start_time s;
     shutdown_hooks := shutdown_hooks s; is_shutdown := is_shutdown s |}.

Definition set_waypoints_failed (v : Z) (s : CornerNavigator) :=
  {| waypoints := waypoints s; current_odom := current_odom s;
     log_file := log_file s; waypoints_reached := waypoints_reached s;
     waypoints_failed := v; start_time := start_time s;
     shutdown_hooks := shutdown_hooks s; is_shutdown := is_shutdown s |}.

Definition set_start_time (v : option rostime) (s : CornerNavigator) :=
  {| waypoints := waypoints s; current_odom := current_odom s;
     log_file := log_file s; waypoints_reached := waypoints_reached s;
     waypoints_failed := waypoints_failed s; start_time := v;
     shutdown_hooks := shutdown_hooks s; is_shutdown := is_shutdown s |}.

Definition set_shutdown_hooks (v : bool) (s : CornerNavigator) :=
  {| waypoints := waypoints s; current_odom := current_odom s;
     log_file := log_file s; waypoints_reached := waypoints_reached s;
     waypoints_failed := waypoints_failed s; start_time := start_time s;
     shutdown_hooks := v; is_shutdown := is_shutdown s |}.

Definition set_is_shutdown (v : bool) (s : CornerNavigator) :=
  {| waypoints := waypoints s; current_odom := current_odom s;
     log_file := log_file s; waypoints_reached := waypoints_reached s;
     waypoints_failed := waypoints_failed s; start_time := start_time s;
     shutdown_hooks := shutdown_hooks s; is_shutdown := v |}.

(** *** The file object [self.log_file] *)

(** [self.log_file.write(w)]; on a closed file Python raises [ValueError]. *)
Definition file_write (w : written) : M unit :=
  s <- get ;;
  match log_file s with
  | None => raise AttributeError
  | Some f => if closed f then raise ValueError else emit (LogWrite w)
  end.

Definition file_flush : M unit :=
  s <- get ;;
  match log_file s with
  | None => raise AttributeError
  | Some f => if closed f then raise ValueError else emit LogFlush
  end.

(** [self.log_file.close()]; closing a closed file does nothing. *)
Definition file_close : M unit :=
  s <- get ;;
  match log_file s with
  | None => raise AttributeError
  | Some f =>
      if closed f then ret tt
      else emit LogClose ;;
           modify (set_log_file (Some {| path := path f; closed := true |}))
  end.

(** [self.log_file and not self.log_file.closed] *)
Definition log_is_open (s : CornerNavigator) : bool :=
  match log_file s with
  | None => false
  | Some f => negb (closed f)
  end.

(** *** The action client [self.client] *)

Definition send_goal (g : MoveBaseGoal) : M unit := emit (SendGoal g).

Definition cancel_all_goals : M unit := emit CancelAllGoals.

(** ** What the outside supplies *)

(** Around one [log_waypoint] call: the odometry messages whose callbacks
    have run since the previous call, oldest first, and the clock reading
    [rospy.Time.now()] of the call. *)
Record log_env := { odom_msgs : list Odometry; now : rostime }.

(** For one turn of the sequencing loop.  [wait_signal] and [dwell_signal]
    say whether the shutdown signal arrives while the node blocks in
    [wait_for_result], respectively in the pause. *)
Record iter_env := {
  goal_stamp : rostime;      (* rospy.Time.now() in create_goal *)
  at_sent : log_env;
  wait_signal : bool;
  wait_done : bool;          (* what wait_for_result returns *)
  wait_state : GoalStatus;   (* what get_state() returns after it *)
  at_result : log_env;
  dwell_signal : bool;
  at_pause : log_env
}.

(** For a whole run after the constructor. *)
Record run_env := {
  warmup_signal : bool;      (* shutdown during the 5 s warm-up *)
  start_now : rostime;
  iter : nat -> iter_env;    (* by the loop index i *)
  end_now : rostime;
  end_date : string;         (* datetime.now().strftime(...) of the summary *)
  shutdown_date : string     (* the same in the shutdown hook *)
}.

(** For the constructor: the file system and the package index. *)
Record os_env := {
  rospack_get_path : option string;  (* None: the import or the lookup raises *)
  expanduser : string -> string;
  path_exists : string -> bool;
  makedirs_ok : string -> bool;      (* false: os.makedirs raises *)
  open_ok : string -> bool;          (* false: open raises *)
  file_stamp : string;               (* strftime("%Y%m%d_%H%M%S") *)
  start_date : string                (* strftime("%Y-%m-%d %H:%M:%S") *)
}.

(** ** The node *)

Section Node.

(** [math.sin] and [math.cos] are the C library's; their binary64 results
    are not fixed by IEEE 754, so they stay parameters. *)
Variables math_sin math_cos : float -> float.

(** *** [odom_callback] *)
Definition odom_callback (msg : Odometry) : M unit :=
  modify (set_current_odom (Some msg)).

(** The callbacks of the messages that arrived, in order. *)
Fixpoint odom_feed (msgs : list Odometry) : M unit :=
  match msgs with
  | [] => ret tt
  | msg :: rest => odom_callback msg ;; odom_feed rest
  end.

(** *** [create_goal]; [stamp_now] is its [rospy.Time.now()] *)
Definition create_goal (stamp_now : rostime) (x y : float)
    (orientation_yaw : float) : MoveBaseGoal :=
  {| frame_id := "map";
     stamp := stamp_now;
     position := {| px := x; py := y; pz := 0.0 |};
     orientation :=
       {| qx := 0.0;
          qy := 0.0;
          qz := math_sin (orientation_yaw / 2.0);
          qw := math_cos (orientation_yaw / 2.0) |} |}.

(** The default of the parameter [orientation_yaw]. *)
Definition default_orientation_yaw : float := 0.0.

(** *** [log_waypoint]; [time_now] is its [rospy.Time.now()] *)
Definition log_waypoint (time_now : rostime) (waypoint_name : string)
    (x y : float) (status : string) : M unit :=
  let timestamp := to_sec time_now in
  s <- get ;;
  let odom_info :=
    match current_odom s with
    | Some msg => Some (position_x msg, position_y msg)
    | None => None
    end in
  let log_entry :=
    {| timestamp := timestamp;
       name := Py.slice_to 30 waypoint_name;
       target_x := x;
       target_y := y;
       status := status;
       actual := odom_info |} in
  file_write (Entry log_entry) ;;
  file_flush.

(** *** [shutdown_hook]; [date] is its [datetime.now().strftime(...)] *)

(** ["\nShutdown initiated at: {}\n".format(date)] *)
Definition shutdown_marker (date : string) : string :=
  nl ++ "Shutdown initiated at: " ++ date ++ nl.

Definition shutdown_hook (date : string) : M unit :=
  cancel_all_goals ;;
  s <- get ;;
  if log_is_open s then
    file_write (Text (shutdown_marker date)) ;;
    file_close
  else ret tt.

(** *** rospy *)

(** [rospy.signal_shutdown]: on the first call rospy raises its shutdown
    flag and runs the registered hooks; later calls return at once.  It is
    what the SIGINT handler and the exit handler of the process call. *)
Definition signal_shutdown (date : string) : M unit :=
  s <- get ;;
  if is_shutdown s then ret tt
  else
    modify (set_is_shutdown true) ;;
    if shutdown_hooks s then shutdown_hook date else ret tt.

Definition deliver_signal (signal : bool) (date : string) : M unit :=
  if signal then signal_shutdown date else ret tt.

(** [rospy.sleep(duration)]: raises once the node is shutting down. *)
Definition rospy_sleep (duration : float) (signal : bool) (date : string)
    : M unit :=
  emit (Sleep duration) ;;
  deliver_signal signal date ;;
  s <- get ;;
  if is_shutdown s then raise ROSInterruptException else ret tt.

(** [rospy.spin()]: returns when the node shuts down, so a run that comes
    back from it has received the signal. *)
Definition rospy_spin (date : string) : M unit :=
  emit Spin ;;
  signal_shutdown date.

(** [self.client.wait_for_result(rospy.Duration(timeout))] *)
Definition wait_for_result (timeout : float) (signal : bool) (date : string)
    (done : bool) : M bool :=
  emit (WaitForResult timeout) ;;
  deliver_signal signal date ;;
  ret done.

(** *** [navigate_to_waypoints] *)

Definition incr_reached : M unit :=
  modify (fun s => set_waypoints_reached (waypoints_reached s + 1) s).

Definition incr_failed : M unit :=
  modify (fun s => set_waypoints_failed (waypoints_failed s + 1) s).

(** A call of [log_waypoint], after the callbacks of the messages that
    arrived before it. *)
Definition log_at (e : log_env) (waypoint_name : string) (x y : float)
    (status : string) : M unit :=
  odom_feed (odom_msgs e) ;;
  log_waypoint (now e) waypoint_name x y status.

(** One turn of the loop, for the waypoint [wp]. *)
Definition loop_body (date : string) (e : iter_env) (wp : waypoint)
    : M unit :=
  let x := wp_x wp in
  let y := wp_y wp in
  let waypoint_name := wp_name wp in
  let pause_duration := wp_pause wp in
  (* Create and send goal *)
  let goal := create_goal (goal_stamp e) x y default_orientation_yaw in
  log_at (at_sent e) waypoint_name x y "Goal Sent" ;;
  send_goal goal ;;
  (* Wait for result with timeout *)
  success <- wait_for_result 60.0 (wait_signal e) date (wait_done e) ;;
  if negb success then
    log_at (at_result e) waypoint_name x y "Timeout" ;;
    incr_failed
  else
    (* the state of the goal *)
    let state := wait_state e in
    if status_eqb state SUCCEEDED then
      log_at (at_result e) waypoint_name x y "Reached" ;;
      incr_reached ;;
      (* Pause at waypoint *)
      if (0 <? pause_duration)%float then
        rospy_sleep pause_duration (dwell_signal e) date ;;
        log_at (at_pause e) waypoint_name x y "Pause Complete"
      else ret tt
    else
      log_at (at_result e) waypoint_name x y "Failed" ;;
      incr_failed.

(** [for i, (...) in enumerate(self.waypoints)], from index [i] on. *)
Fixpoint navigate_loop (env : run_env) (i : nat) (ws : list waypoint)
    : M unit :=
  match ws with
  | [] => ret tt
  | wp :: rest =>
      loop_body (shutdown_date env) (iter env i) wp ;;
      navigate_loop env (S i) rest
  end.

Definition rule (c : ascii) : string := Py.repeat_char c 80.

(** [100.0 * reached / total if total > 0 else 0], the value formatted as
    the success rate.  A true division by the [int] zero raises; the [0]
    of the guard is an [int], which the presentation type [f] formats as
    the float it equals. *)
Definition success_rate (reached : Z) (total : nat) : result float :=
  if (0 <? total)%nat
  then truediv_int (100.0 * Py.float_of_int reached) (Z.of_nat total)
  else Ok 0%float.

(** The writes of the final summary, in order: down to the counts, and
    from the success rate on. *)
Definition summary_counts (date : string) (total : nat)
    (reached failed : Z) : list written :=
  [ Text (nl ++ rule "=" ++ nl);
    Text ("NAVIGATION SUMMARY" ++ nl);
    Text (rule "=" ++ nl);
    Text ("End Time: " ++ date ++ nl);
    Text ("Total Waypoints: " ++ Py.str_int (Z.of_nat total) ++ nl);
    Text ("Successfully Reached: " ++ Py.str_int reached ++ nl);
    Text ("Failed: " ++ Py.str_int failed ++ nl) ].

Definition summary_rates (rate total_time : float) : list written :=
  [ Text ("Success Rate: " ++ Py.format_f 1 rate ++ "%" ++ nl);
    Text ("Total Duration: " ++ Py.format_f 2 total_time ++ " seconds" ++ nl);
    Text (rule "=" ++ nl) ].

Fixpoint write_all (ws : list written) : M unit :=
  match ws with
  | [] => ret tt
  | w :: rest => file_write w ;; write_all rest
  end.

Definition navigate_to_waypoints (env : run_env) : M unit :=
  modify (set_start_time (Some (start_now env))) ;;
  s <- get ;;
  navigate_loop env 0 (waypoints s) ;;
  (* Final summary *)
  s <- get ;;
  match start_time s with
  | None => raise TypeError
  | Some t0 =>
      let total_time := to_sec (time_sub (end_now env) t0) in
      (* the summary, to the log file *)
      write_all (summary_counts (end_date env) (List.length (waypoints s))
                                (waypoints_reached s) (waypoints_failed s)) ;;
      rate <- of_result (success_rate (waypoints_reached s)
                                      (List.length (waypoints s))) ;;
      write_all (summary_rates rate total_time)
  end.

(** *** [__init__] *)

(** The route: corners with intermediate obstacle waypoints. *)
Definition route : list waypoint :=
  [ {| wp_x := 0.5; wp_y := 0.5; wp_name := "Corner 1"; wp_pause := 2.0 |};
    {| wp_x := 0.8; wp_y := 1.5; wp_name := "Waypoint - Obstacle 1 Zone";
       wp_pause := 0.5 |};
    {| wp_x := 0.5; wp_y := 4.5; wp_name := "Corner 2"; wp_pause := 2.0 |};
    {| wp_x := 1.8; wp_y := 4.2; wp_name := "Waypoint - Obstacle 2 Zone";
       wp_pause := 0.5 |};
    {| wp_x := 4.5; wp_y := 4.5; wp_name := "Corner 3"; wp_pause := 2.0 |};
    {| wp_x := 4.2; wp_y := 3.5; wp_name := "Waypoint - Obstacle 3 Zone";
       wp_pause := 0.5 |};
    {| wp_x := 4.5; wp_y := 0.5; wp_name := "Corner 4"; wp_pause := 2.0 |};
    {| wp_x := 3.5; wp_y := 0.8; wp_name := "Waypoint - Obstacle 4 Zone";
       wp_pause := 0.5 |};
    {| wp_x := 0.5; wp_y := 0.5; wp_name := "Corner 1 (Return)";
       wp_pause := 2.0 |} ].

(** The object before its constructor has run. *)
Definition blank : CornerNavigator :=
  {| waypoints := []; current_odom := None; log_file := None;
     waypoints_reached := 0; waypoints_failed := 0; start_time := None;
     shutdown_hooks := false; is_shutdown := false |}.

(** [os.path.join(a, b)] on POSIX. *)
Definition ends_with_sep (a : string) : bool :=
  match String.get (String.length a - 1) a with
  | Some c => Ascii.eqb c "/"
  | None => false
  end.

Definition path_join (a b : string) : string :=
  match b with
  | String "/" _ => b
  | _ =>
      match a with
      | EmptyString => b
      | _ => if ends_with_sep a then a ++ b else a ++ "/" ++ b
      end
  end.

Definition home_logs : string :=
  "~/catkin_ws/src/turtlebot3_exploration/logs".

(** The package's log directory, or the one under the home directory when
    the package cannot be located. *)
Definition log_dir (os : os_env) : string :=
  match rospack_get_path os with
  | Some package_path => path_join package_path "logs"
  | None => expanduser os home_logs
  end.

Definition makedirs (os : os_env) (dir : string) : M unit :=
  emit (MakeDirs dir) ;;
  if makedirs_ok os dir then ret tt else raise OSError.

(** [self.log_file = open(log_filename, 'w')] *)
Definition open_log (os : os_env) (log_filename : string) : M unit :=
  emit (OpenLog log_filename) ;;
  if open_ok os log_filename
  then modify (set_log_file (Some {| path := log_filename; closed := false |}))
  else raise OSError.

Definition header (date : string) : list written :=
  [ Text (rule "=" ++ nl);
    Text ("TurtleBot3 Autonomous Exploration - Waypoint Navigation Log" ++ nl);
    Text (rule "=" ++ nl);
    Text ("Start Time: " ++ date ++ nl);
    Text (rule "=" ++ nl ++ nl);
    Text (Py.ljust 12 "Timestamp" ++ " | " ++ Py.ljust 30 "Waypoint Name"
          ++ " | " ++ Py.ljust 8 "X (m)" ++ " | " ++ Py.ljust 8 "Y (m)"
          ++ " | " ++ Py.ljust 15 "Status" ++ nl);
    Text (rule "-" ++ nl) ].

(** The constructor, once the action server has answered: the route, the
    odometry cell, the log file with its header, the statistics, the
    shutdown hook. *)
Definition CornerNavigator_init (os : os_env) : M unit :=
  modify (set_waypoints route) ;;
  modify (set_current_odom None) ;;
  (* Get package path for log file *)
  let log_dir := log_dir os in
  (* Create logs directory if it doesn't exist *)
  (if negb (path_exists os log_dir) then makedirs os log_dir else ret tt) ;;
  (* Create log file with timestamp *)
  let log_filename :=
    path_join log_dir ("waypoint_log_" ++ file_stamp os ++ ".txt") in
  open_log os log_filename ;;
  (* the header *)
  write_all (header (start_date os)) ;;
  (* Statistics *)
  modify (set_waypoints_reached 0) ;;
  modify (set_waypoints_failed 0) ;;
  modify (set_start_time None) ;;
  modify (set_shutdown_hooks true).

(** *** [main] *)

(** [try: ... except rospy.ROSInterruptException: ... except Exception: ...]
    with handlers that only report. *)
Definition try_except (m : M unit) : M unit :=
  fun s =>
    match m s with
    | {| res := _; after := s1; effects := ev |} =>
        {| res := Ok tt; after := s1; effects := ev |}
    end.

(** The sequencing of [main] after the constructor. *)
Definition sequence (env : run_env) : M unit :=
  (* Give SLAM and navigation stack time to initialize *)
  rospy_sleep 5.0 (warmup_signal env) (shutdown_date env) ;;
  navigate_to_waypoints env ;;
  (* Keep node alive to allow for graceful shutdown *)
  rospy_spin (shutdown_date env).

(** [main()] and the end of the process, where rospy's exit handler
    signals shutdown if nothing has before. *)
Definition main (os : os_env) (env : run_env) : M unit :=
  try_except (CornerNavigator_init os ;; sequence env) ;;
  signal_shutdown (shutdown_date env).

(** A run of the process. *)
Definition run (os : os_env) (env : run_env) : outcome unit :=
  main os env blank.

(** ** Views of a trace *)

(** What was written to the log file, in order. *)
Fixpoint log_writes (tr : list event) : list written :=
  match tr with
  | [] => []
  | LogWrite w :: rest => w :: log_writes rest
  | _ :: rest => log_writes rest
  end.

(** The rows among what was written. *)
Fixpoint entries (ws : list written) : list log_entry :=
  match ws with
  | [] => []
  | Entry r :: rest => r :: entries rest
  | Text _ :: rest => entries rest
  end.

(** The text of the log file. *)
Definition log_text (tr : list event) : string :=
  String.concat EmptyString (map render (log_writes tr)).

(** The goals sent to move_base, in order. *)
Fixpoint goals_sent (tr : list event) : list MoveBaseGoal :=
  match tr with
  | [] => []
  | SendGoal g :: rest => g :: goals_sent rest
  | _ :: rest => goals_sent rest
  end.

Definition is_close (e : event) : bool :=
  match e with LogClose => true | _ => false end.

Definition is_cancel (e : event) : bool :=
  match e with CancelAllGoals => true | _ => false end.

Definition is_sleep (e : event) : bool :=
  match e with Sleep _ => true | _ => false end.

Definition count (p : event -> bool) (tr : list event) : nat :=
  List.length (filter p tr).

(** The title line that opens the summary footer. *)
Definition is_summary_title (w : written) : bool :=
  match w with
  | Text s => String.eqb s ("NAVIGATION SUMMARY" ++ nl)
  | Entry _ => false
  end.

(** How many summary footers the log holds. *)
Definition summaries (tr : list event) : nat :=
  List.length (filter is_summary_title (log_writes tr)).

(** ** Notions of the statements *)

(** The node between its constructor and the shutdown signal: the log is
    open, the hook is registered, rospy is not shutting down. *)
Definition live (s : CornerNavigator) : Prop :=
  log_is_open s = true /\ is_shutdown s = false /\ shutdown_hooks s = true.

Definition has_odom (s : CornerNavigator) : Prop := current_odom s <> None.

(** The odometry cell after the callbacks of [msgs]. *)
Definition latest (msgs : list Odometry) (cur : option Odometry)
    : option Odometry :=
  fold_left (fun _ msg => Some msg) msgs cur.

Definition heard (msgs : list Odometry) (s : CornerNavigator)
    : CornerNavigator :=
  set_current_odom (latest msgs (current_odom s)) s.

(** The position [log_waypoint] reads in the state [s]. *)
Definition seen (s : CornerNavigator) : option (float * float) :=
  match current_odom s with
  | Some msg => Some (position_x msg, position_y msg)
  | None => None
  end.

(** The row [log_waypoint] writes for [wp] with the status [st], called
    in the surroundings [e] from the state [s]. *)
Definition entry_at (e : log_env) (wp : waypoint) (st : string)
    (s : CornerNavigator) : log_entry :=
  {| timestamp := to_sec (now e);
     name := Py.slice_to 30 (wp_name wp);
     target_x := wp_x wp;
     target_y := wp_y wp;
     status := st;
     actual := seen (heard (odom_msgs e) s) |}.

Definition row (e : log_env) (wp : waypoint) (st : string)
    (s : CornerNavigator) : list event :=
  [LogWrite (Entry (entry_at e wp st s)); LogFlush].

(** The goal of the waypoint [wp]. *)
Definition goal_of (e : iter_env) (wp : waypoint) : MoveBaseGoal :=
  create_goal (goal_stamp e) (wp_x wp) (wp_y wp) default_orientation_yaw.

(** The events of a turn of the loop up to its wait. *)
Definition dispatch (e : iter_env) (wp : waypoint) (s : CornerNavigator)
    : list event :=
  row (at_sent e) wp "Goal Sent" s
  ++ [SendGoal (goal_of e wp); WaitForResult 60].

(** The state in which the result of the wait is logged. *)
Definition awaited (e : iter_env) (s : CornerNavigator) : CornerNavigator :=
  heard (odom_msgs (at_result e)) (heard (odom_msgs (at_sent e)) s).

(** What the shutdown hook does to an open log. *)
Definition shutdown_events (date : string) : list event :=
  [CancelAllGoals; LogWrite (Text (shutdown_marker date)); LogClose].

Definition close_file (f : option py_file) : option py_file :=
  match f with
  | Some f => Some {| path := path f; closed := true |}
  | None => None
  end.

(** The node after the shutdown signal. *)
Definition stopped (s : CornerNavigator) : CornerNavigator :=
  set_log_file (close_file (log_file s)) (set_is_shutdown true s).

Definition is_summary (e : event) : bool :=
  match e with
  | LogWrite w => is_summary_title w
  | _ => false
  end.

(** Events among which nothing closes the log, cancels goals or opens a
    summary. *)
Definition quiet (tr : list event) : bool :=
  forallb (fun e => negb (is_close e || is_cancel e || is_summary e)) tr.

Definition has_status (st : string) (r : log_entry) : bool :=
  String.eqb (status r) st.

(** The rows of a trace. *)
Definition rows (tr : list event) : list log_entry :=
  entries (log_writes tr).

(** The navigation outcome of a turn that no signal disturbs. *)
Inductive NavigationOutcome := Succeeded | Failed | TimedOut.

Definition outcome_of (e : iter_env) : NavigationOutcome :=
  if negb (wait_done e) then TimedOut
  else if status_eqb (wait_state e) SUCCEEDED then Succeeded
  else Failed.

(** Whether the turn for [wp] pauses. *)
Definition dwells (e : iter_env) (wp : waypoint) : bool :=
  match outcome_of e with
  | Succeeded => (0 <? wp_pause wp)%float
  | _ => false
  end.

(** Whether the shutdown signal arrives during the turn for [wp]. *)
Definition signalled (e : iter_env) (wp : waypoint) : bool :=
  wait_signal e || (dwells e wp && dwell_signal e).

Fixpoint loop_signalled (env : run_env) (i : nat) (ws : list waypoint)
    : bool :=
  match ws with
  | [] => false
  | wp :: rest => signalled (iter env i) wp || loop_signalled env (S i) rest
  end.

(** Whether the shutdown signal arrives before the loop has ended. *)
Definition interrupted (env : run_env) (ws : list waypoint) : bool :=
  warmup_signal env || loop_signalled env 0 ws.

(** The goals of the waypoints [ws], the first of which has index [i]. *)
Fixpoint goals_of (env : run_env) (i : nat) (ws : list waypoint)
    : list MoveBaseGoal :=
  match ws with
  | [] => []
  | wp :: rest => goal_of (iter env i) wp :: goals_of env (S i) rest
  end.

(** The success rate of the summary when the division is safe. *)
Definition rate_value (reached : Z) (total : nat) : float :=
  if (0 <? total)%nat
  then (100.0 * Py.float_of_int reached
        / Py.float_of_int (Z.of_nat total))%float
  else 0%float.

(** The summary of a run that started at [t0] and ended in the state
    [s]. *)
Definition summary (env : run_env) (t0 : rostime) (s : CornerNavigator)
    : list written :=
  summary_counts (end_date env) (List.length (waypoints s))
                 (waypoints_reached s) (waypoints_failed s)
  ++ summary_rates (rate_value (waypoints_reached s)
                               (List.length (waypoints s)))
                   (to_sec (time_sub (end_now env) t0)).

(** The five columns of a row, before the odometry suffix. *)
Definition columns (r : log_entry) : string :=
  Py.ljust 12 (Py.format_f 2 (timestamp r)) ++ " | "
  ++ Py.ljust 30 (name r) ++ " | "
  ++ Py.ljust 8 (Py.format_f 2 (target_x r)) ++ " | "
  ++ Py.ljust 8 (Py.format_f 2 (target_y r)) ++ " | "
  ++ Py.ljust 15 (status r).

(** A computation that keeps the property [P] of the node and writes only
    rows with the property [Q]. *)
Definition keeps (P : CornerNavigator -> Prop) (Q : log_entry -> Prop)
    {A} (m : M A) : Prop :=
  forall s, P s -> P (after (m s)) /\ Forall Q (rows (effects (m s))).

(** Whether a row carries the odometry position. *)
Definition with_actual (r : log_entry) : Prop := actual r <> None.

(** The odometry feed around the turn [e], which delivers nothing if it is
    silent. *)
Definition feeds (e : iter_env) : list (list Odometry) :=
  [odom_msgs (at_sent e); odom_msgs (at_result e); odom_msgs (at_pause e)].

Definition silent (env : run_env) : Prop :=
  forall i msgs, In msgs (feeds (iter env i)) -> msgs = [].

(** The path of the log file. *)
Definition log_filename (os : os_env) : string :=
  path_join (log_dir os) ("waypoint_log_" ++ file_stamp os ++ ".txt").

(** The node a successful constructor leaves. *)
Definition constructed (os : os_env) : CornerNavigator :=
  {| waypoints := route; current_odom := None;
     log_file := Some {| path := log_filename os; closed := false |};
     waypoints_reached := 0; waypoints_failed := 0; start_time := None;
     shutdown_hooks := true; is_shutdown := false |}.

(** Whether [dir] is there or [os.makedirs] can make it. *)
Definition creatable (os : os_env) (dir : string) : bool :=
  path_exists os dir || makedirs_ok os dir.

(** [main] from the constructed node on: the rest of its [try] block and
    the end of the process. *)
Definition session (env : run_env) : M unit :=
  try_except (sequence env) ;;
  signal_shutdown (shutdown_date env).

(** ** Sample runs *)

(** Stand-ins for [math.sin] and [math.cos] that are exact at the yaw
    zero, the only one the node uses. *)
Definition demo_sin (x : float) : float := x.
Definition demo_cos (x : float) : float := 1.

(** The package is installed and its log directory can be made. *)
Definition demo_os : os_env :=
  {| rospack_get_path := Some "/opt/ros/noetic/share/turtlebot3_exploration";
     expanduser := fun p => "/home/robot" ++ substring 1 (String.length p) p;
     path_exists := fun _ => false;
     makedirs_ok := fun _ => true;
     open_ok := fun _ => true;
     file_stamp := "20240305_101500";
     start_date := "2024-03-05 10:15:00" |}.

(** The package is installed read-only: only the directory under the home
    directory could be made. *)
Definition demo_os_readonly : os_env :=
  {| rospack_get_path := Some "/opt/ros/noetic/share/turtlebot3_exploration";
     expanduser := fun p => "/home/robot" ++ substring 1 (String.length p) p;
     path_exists := fun _ => false;
     makedirs_ok :=
       String.eqb "/home/robot/catkin_ws/src/turtlebot3_exploration/logs";
     open_ok := fun _ => true;
     file_stamp := "20240305_101500";
     start_date := "2024-03-05 10:15:00" |}.

Definition demo_clock (t : Z) : rostime := {| secs := t; nsecs := 250000000 |}.

Definition demo_odom : Odometry :=
  {| position_x := 0.49; position_y := 0.515 |}.

(** A turn at the index [i]: whether the signal comes in the wait, what
    the wait returns, the state of the goal, whether the signal comes in
    the pause, and the odometry messages that arrive during the wait. *)
Definition demo_turn (signal_in_wait done : bool) (st : GoalStatus)
    (signal_in_pause : bool) (msgs : list Odometry) (i : nat) : iter_env :=
  {| goal_stamp := demo_clock (100 + 60 * Z.of_nat i);
     at_sent := {| odom_msgs := []; now := demo_clock (100 + 60 * Z.of_nat i) |};
     wait_signal := signal_in_wait;
     wait_done := done;
     wait_state := st;
     at_result := {| odom_msgs := msgs;
                     now := demo_clock (130 + 60 * Z.of_nat i) |};
     dwell_signal := signal_in_pause;
     at_pause := {| odom_msgs := [];
                    now := demo_clock (132 + 60 * Z.of_nat i) |} |}.

Definition demo_env (warmup : bool) (turn : nat -> iter_env) : run_env :=
  {| warmup_signal := warmup;
     start_now := demo_clock 95;
     iter := turn;
     end_now := demo_clock 700;
     end_date := "2024-03-05 10:25:05";
     shutdown_date := "2024-03-05 10:30:00" |}.

(** Every goal succeeds and the odometry is heard. *)
Definition demo_all_reached : run_env :=
  demo_env false (demo_turn false true SUCCEEDED false [demo_odom]).

(** The second waypoint times out. *)
Definition demo_one_timeout : run_env :=
  demo_env false
    (fun i => demo_turn false (negb (Nat.eqb i 1)) SUCCEEDED false
                        [demo_odom] i).

(** The signal comes during the warm-up, before any waypoint. *)
Definition demo_early_signal : run_env :=
  demo_env true (demo_turn false true SUCCEEDED false [demo_odom]).

(** The signal comes during the pause at the third waypoint. *)
Definition demo_signal_in_pause : run_env :=
  demo_env false
    (fun i => demo_turn false true SUCCEEDED (Nat.eqb i 2) [demo_odom] i).

(** The signal comes during the wait for the first waypoint. *)
Definition demo_signal_in_wait : run_env :=
  demo_env false (demo_turn true false PENDING false []).

(** The odometry feed never emits. *)
Definition demo_silent : run_env :=
  demo_env false (demo_turn false true SUCCEEDED false []).

(** The constructed node, the same with an empty route, and with a route
    of three waypoints without pauses. *)
Definition demo_node : CornerNavigator := constructed demo_os.

Definition demo_empty : CornerNavigator := set_waypoints [] demo_node.

Definition demo_wp (x y : float) (n : string) : waypoint :=
  {| wp_x := x; wp_y := y; wp_name := n; wp_pause := 0 |}.

Definition demo_three : CornerNavigator :=
  set_waypoints [demo_wp 0.5 0.5 "A"; demo_wp 0.5 4.5 "B";
                 demo_wp 4.5 4.5 "C"] demo_node.

Definition demo_corner : waypoint :=
  {| wp_x := 0.5; wp_y := 0.5; wp_name := "Corner 1"; wp_pause := 2.0 |}.

(** ** Notions of the further properties *)

(** Whether every row written is flushed by the very next event. *)
Fixpoint flushed (tr : list event) : bool :=
  match tr with
  | [] => true
  | LogWrite (Entry _) :: rest =>
      match rest with
      | LogFlush :: rest' => flushed rest'
      | _ => false
      end
  | _ :: rest => flushed rest
  end.

(** The events of the action client that carry a goal through: its send
    and the wait for its result. *)
Definition is_exchange (e : event) : bool :=
  match e with
  | SendGoal _ | WaitForResult _ => true
  | _ => false
  end.

Definition exchange (g : MoveBaseGoal) : list event :=
  [SendGoal g; WaitForResult 60].

(** How many rows of a trace have the status [st]. *)
Definition count_status (st : string) (tr : list event) : Z :=
  Z.of_nat (List.length (filter (has_status st) (rows tr))).

(** The statuses [navigate_to_waypoints] passes to [log_waypoint]. *)
Definition vocabulary : list string :=
  ["Goal Sent"; "Reached"; "Pause Complete"; "Timeout"; "Failed"].

(** A row that records the waypoint [wp]. *)
Definition records (wp : waypoint) (r : log_entry) : Prop :=
  name r = Py.slice_to 30 (wp_name wp)
  /\ target_x r = wp_x wp /\ target_y r = wp_y wp.

(** A row of the route [ws]. *)
Definition of_route (ws : list waypoint) (r : log_entry) : Prop :=
  In (status r) vocabulary /\ exists wp, In wp ws /\ records wp r.

(** The loop of a session, as [navigate_to_waypoints] starts it. *)
Definition session_loop (env : run_env) (s : CornerNavigator) : outcome unit :=
  navigate_loop env 0 (waypoints s) (set_start_time (Some (start_now env)) s).

(** The package's log directory exists already; the log cannot be opened. *)
Definition demo_os_existing : os_env :=
  {| rospack_get_path := Some "/opt/ros/noetic/share/turtlebot3_exploration";
     expanduser := fun p => "/home/robot" ++ substring 1 (String.length p) p;
     path_exists := fun _ => true;
     makedirs_ok := fun _ => false;
     open_ok := fun _ => true;
     file_stamp := "20240305_101500";
     start_date := "2024-03-05 10:15:00" |}.

Definition demo_os_no_open : os_env :=
  {| rospack_get_path := None;
     expanduser := fun p => "/home/robot" ++ substring 1 (String.length p) p;
     path_exists := fun _ => false;
     makedirs_ok := fun _ => true;
     open_ok := fun _ => false;
     file_stamp := "20240305_101500";
     start_date := "2024-03-05 10:15:00" |}.

(** A goal is aborted at the fourth waypoint. *)
Definition demo_one_aborted : run_env :=
  demo_env false
    (fun i => demo_turn false true
                (if Nat.eqb i 3 then ABORTED else SUCCEEDED) false
                [demo_odom] i).

(** ** Symbolic execution *)

Local Open Scope list_scope.

Arguments to_sec : simpl never.
Arguments Py.slice_to : simpl never.
Arguments shutdown_marker : simpl never.
Arguments create_goal : simpl never.

Lemma status_eqb_eq (a b : GoalStatus) : status_eqb a b = true <-> a = b.
Proof. destruct a, b; simpl; split; intro H; congruence. Qed.

Lemma odom_feed_spec msgs s :
  odom_feed msgs s = {| res := Ok tt; after := heard msgs s; effects := [] |}.
Proof.
  revert s; induction msgs as [|m ms IH]; intro s.
  - destruct s; reflexivity.
  - cbn. unfold bind. cbn. rewrite IH. destruct s; reflexivity.
Qed.

(** Open a live state into its fields. *)
Ltac live_state s H :=
  let H1 := fresh in
  let H2 := fresh in
  let H3 := fresh in
  destruct s as [ws od [[p []]|] r f st hk sd];
  destruct H as (H1 & H2 & H3); cbn in H1, H2, H3; try discriminate; subst.

Ltac exec :=
  repeat first
    [ progress cbn
    | rewrite odom_feed_spec
    | progress unfold heard, entry_at, seen, stopped, close_file ].

Ltac unfold_body :=
  unfold loop_body, log_at, log_waypoint, wait_for_result, rospy_sleep,
    deliver_signal, signal_shutdown, shutdown_hook, cancel_all_goals,
    send_goal, incr_reached, incr_failed, file_write, file_flush,
    file_close, outcome_of, dwells, dispatch, row, awaited, goal_of,
    bind, get, emit, ret, raise, modify in *.

(** The six ways through a turn of the loop, from a live node. *)

Lemma body_timeout date e wp s :
  live s -> wait_signal e = false -> outcome_of e = TimedOut ->
  loop_body date e wp s =
  {| res := Ok tt;
     after := set_waypoints_failed (waypoints_failed s + 1) (awaited e s);
     effects := dispatch e wp s
                ++ row (at_result e) wp "Timeout"
                       (heard (odom_msgs (at_sent e)) s) |}.
Proof.
  intros H Hs Ho. live_state s H. unfold_body. rewrite Hs.
  destruct (wait_done e); cbn in Ho;
    [destruct (status_eqb (wait_state e) SUCCEEDED); discriminate|].
  exec. reflexivity.
Qed.

Lemma body_failed date e wp s :
  live s -> wait_signal e = false -> outcome_of e = Failed ->
  loop_body date e wp s =
  {| res := Ok tt;
     after := set_waypoints_failed (waypoints_failed s + 1) (awaited e s);
     effects := dispatch e wp s
                ++ row (at_result e) wp "Failed"
                       (heard (odom_msgs (at_sent e)) s) |}.
Proof.
  intros H Hs Ho. live_state s H. unfold_body. rewrite Hs.
  destruct (wait_done e); [|discriminate]. cbn in Ho.
  destruct (status_eqb (wait_state e) SUCCEEDED); [discriminate|].
  exec. reflexivity.
Qed.

Lemma body_reached date e wp s :
  live s -> wait_signal e = false -> outcome_of e = Succeeded ->
  (0 <? wp_pause wp)%float = false ->
  loop_body date e wp s =
  {| res := Ok tt;
     after := set_waypoints_reached (waypoints_reached s + 1) (awaited e s);
     effects := dispatch e wp s
                ++ row (at_result e) wp "Reached"
                       (heard (odom_msgs (at_sent e)) s) |}.
Proof.
  intros H Hs Ho Hp. live_state s H. unfold_body. rewrite Hs, Hp.
  destruct (wait_done e); [|discriminate]. cbn in Ho.
  destruct (status_eqb (wait_state e) SUCCEEDED); [|discriminate].
  exec. reflexivity.
Qed.

Lemma body_paused date e wp s :
  live s -> wait_signal e = false -> outcome_of e = Succeeded ->
  (0 <? wp_pause wp)%float = true -> dwell_signal e = false ->
  loop_body date e wp s =
  {| res := Ok tt;
     after := heard (odom_msgs (at_pause e))
                (set_waypoints_reached (waypoints_reached s + 1)
                   (awaited e s));
     effects := dispatch e wp s
                ++ row (at_result e) wp "Reached"
                       (heard (odom_msgs (at_sent e)) s)
                ++ [Sleep (wp_pause wp)]
                ++ row (at_pause e) wp "Pause Complete" (awaited e s) |}.
Proof.
  intros H Hs Ho Hp Hd. live_state s H. unfold_body. rewrite Hs, Hp, Hd.
  destruct (wait_done e); [|discriminate]. cbn in Ho.
  destruct (status_eqb (wait_state e) SUCCEEDED); [|discriminate].
  exec. reflexivity.
Qed.

Lemma body_dwell_interrupted date e wp s :
  live s -> wait_signal e = false -> outcome_of e = Succeeded ->
  (0 <? wp_pause wp)%float = true -> dwell_signal e = true ->
  loop_body date e wp s =
  {| res := Raise ROSInterruptException;
     after := stopped (set_waypoints_reached (waypoints_reached s + 1)
                         (awaited e s));
     effects := dispatch e wp s
                ++ row (at_result e) wp "Reached"
                       (heard (odom_msgs (at_sent e)) s)
                ++ [Sleep (wp_pause wp)]
                ++ shutdown_events date |}.
Proof.
  intros H Hs Ho Hp Hd. live_state s H. unfold_body. rewrite Hs, Hp, Hd.
  destruct (wait_done e); [|discriminate]. cbn in Ho.
  destruct (status_eqb (wait_state e) SUCCEEDED); [|discriminate].
  exec. reflexivity.
Qed.

Lemma body_wait_interrupted date e wp s :
  live s -> wait_signal e = true ->
  loop_body date e wp s =
  {| res := Raise ValueError;
     after := heard (odom_msgs (at_result e))
                (stopped (heard (odom_msgs (at_sent e)) s));
     effects := dispatch e wp s ++ shutdown_events date |}.
Proof.
  intros H Hs. live_state s H. unfold_body. rewrite Hs.
  destruct (wait_done e); cbn;
    [destruct (status_eqb (wait_state e) SUCCEEDED)|]; exec; reflexivity.
Qed.
(** ** Traces *)

Lemma log_writes_app a b : log_writes (a ++ b) = log_writes a ++ log_writes b.
Proof.
  induction a as [|[] a IH]; cbn; rewrite ?IH; reflexivity.
Qed.

Lemma entries_app a b : entries (a ++ b) = entries a ++ entries b.
Proof.
  induction a as [|[] a IH]; cbn; rewrite ?IH; reflexivity.
Qed.

Lemma rows_app a b : rows (a ++ b) = rows a ++ rows b.
Proof. unfold rows. rewrite log_writes_app, entries_app. reflexivity. Qed.

Lemma goals_sent_app a b : goals_sent (a ++ b) = goals_sent a ++ goals_sent b.
Proof.
  induction a as [|[] a IH]; cbn; rewrite ?IH; reflexivity.
Qed.

Lemma count_app p a b : count p (a ++ b) = (count p a + count p b)%nat.
Proof. unfold count. rewrite filter_app, length_app. reflexivity. Qed.

Lemma summaries_app a b : summaries (a ++ b) = (summaries a + summaries b)%nat.
Proof.
  unfold summaries. rewrite log_writes_app, filter_app, length_app.
  reflexivity.
Qed.

Lemma quiet_app a b : quiet (a ++ b) = quiet a && quiet b.
Proof. apply forallb_app. Qed.

Lemma quiet_counts tr :
  quiet tr = true ->
  count is_close tr = 0%nat /\ count is_cancel tr = 0%nat
  /\ summaries tr = 0%nat.
Proof.
  unfold count, summaries.
  induction tr as [|e tr IH]; cbn; [auto|].
  intro H. apply andb_prop in H. destruct H as [He Htr].
  destruct (IH Htr) as (IH1 & IH2 & IH3).
  destruct e as [ | | [r|t] | | | | | | | ]; cbn in *;
    try discriminate; try (repeat split; assumption).
  destruct (String.eqb t _); cbn in *;
    [discriminate | repeat split; assumption].
Qed.

Lemma quiet_row e wp st s : quiet (row e wp st s) = true.
Proof. reflexivity. Qed.

Lemma quiet_dispatch e wp s : quiet (dispatch e wp s) = true.
Proof. reflexivity. Qed.

Lemma shutdown_events_counts date :
  count is_close (shutdown_events date) = 1%nat
  /\ count is_cancel (shutdown_events date) = 1%nat
  /\ summaries (shutdown_events date) = 0%nat.
Proof. repeat split. Qed.

(** ** The monad *)

Lemma bind_ok {A B} (m : M A) (k : A -> M B) s a s1 ev1 :
  m s = {| res := Ok a; after := s1; effects := ev1 |} ->
  bind m k s =
  {| res := res (k a s1); after := after (k a s1);
     effects := ev1 ++ effects (k a s1) |}.
Proof. intro H. unfold bind. rewrite H. destruct (k a s1); reflexivity. Qed.

Lemma bind_raise {A B} (m : M A) (k : A -> M B) s x s1 ev1 :
  m s = {| res := Raise x; after := s1; effects := ev1 |} ->
  bind m k s = {| res := Raise x; after := s1; effects := ev1 |}.
Proof. intro H. unfold bind. rewrite H. reflexivity. Qed.

Arguments bind_ok {A B} m k {s a s1 ev1} _.
Arguments bind_raise {A B} m k {s x s1 ev1} _.

(** ** A turn of the loop *)

(** Split on the way a turn takes, rewriting it into its outcome. *)
Ltac body_split date e wp H :=
  let Hsig := fresh "Hsig" in
  let Hout := fresh "Hout" in
  let Hp := fresh "Hp" in
  let Hd := fresh "Hd" in
  unfold signalled, dwells;
  destruct (wait_signal e) eqn:Hsig;
  [ rewrite (@body_wait_interrupted date e wp _ H Hsig)
  | destruct (outcome_of e) eqn:Hout;
    [ destruct (0 <? wp_pause wp)%float eqn:Hp;
      [ destruct (dwell_signal e) eqn:Hd;
        [ rewrite (@body_dwell_interrupted date e wp _ H Hsig Hout Hp Hd)
        | rewrite (@body_paused date e wp _ H Hsig Hout Hp Hd) ]
      | rewrite (@body_reached date e wp _ H Hsig Hout Hp) ]
    | rewrite (@body_failed date e wp _ H Hsig Hout)
    | rewrite (@body_timeout date e wp _ H Hsig Hout) ] ].

Ltac open_state s :=
  destruct s as [ws od [[p []]|] r f st hk sd];
  unfold live, log_is_open, has_odom, awaited, heard, stopped, close_file in *;
  cbn in *.

Lemma body_spec date e wp s :
  live s ->
  let o := loop_body date e wp s in
  waypoints (after o) = waypoints s
  /\ start_time (after o) = start_time s
  /\ goals_sent (effects o) = [goal_of e wp]
  /\ if signalled e wp then
       (exists x pre,
           res o = Raise x /\ effects o = pre ++ shutdown_events date
           /\ quiet pre = true)
       /\ is_shutdown (after o) = true
       /\ log_is_open (after o) = false
       /\ waypoints_failed (after o) = waypoints_failed s
       /\ (waypoints_reached s <= waypoints_reached (after o)
           <= waypoints_reached s + 1)%Z
     else
       res o = Ok tt /\ live (after o) /\ quiet (effects o) = true
       /\ ((waypoints_reached (after o) = waypoints_reached s + 1
            /\ waypoints_failed (after o) = waypoints_failed s)
           \/ (waypoints_reached (after o) = waypoints_reached s
               /\ waypoints_failed (after o) = waypoints_failed s + 1))%Z.
Proof.
  intros H o. subst o. body_split date e wp H; cbn [res after effects orb andb].
  - split; [|split; [|split]]; try (open_state s; reflexivity).
    split; [|open_state s; intuition (try discriminate; lia)].
    eexists _, (dispatch e wp s). repeat split.
  - split; [|split; [|split]]; try (open_state s; reflexivity).
    split; [|open_state s; intuition (try discriminate; lia)].
    eexists _, (dispatch e wp s ++ row (at_result e) wp "Reached" _
                ++ [Sleep (wp_pause wp)]).
    repeat split.
  - split; [|split; [|split]]; try (open_state s; reflexivity).
    split; [reflexivity|]. split; [open_state s; intuition discriminate|].
    split; [reflexivity|]. left. open_state s; auto.
  - split; [|split; [|split]]; try (open_state s; reflexivity).
    split; [reflexivity|]. split; [open_state s; intuition discriminate|].
    split; [reflexivity|]. left. open_state s; auto.
  - split; [|split; [|split]]; try (open_state s; reflexivity).
    split; [reflexivity|]. split; [open_state s; intuition discriminate|].
    split; [reflexivity|]. right. open_state s; auto.
  - split; [|split; [|split]]; try (open_state s; reflexivity).
    split; [reflexivity|]. split; [open_state s; intuition discriminate|].
    split; [reflexivity|]. right. open_state s; auto.
Qed.

(** ** The loop *)

Lemma loop_spec env ws : forall i s,
  live s ->
  let o := navigate_loop env i ws s in
  let n := Z.of_nat (List.length ws) in
  waypoints (after o) = waypoints s
  /\ start_time (after o) = start_time s
  /\ (waypoints_reached s <= waypoints_reached (after o))%Z
  /\ (waypoints_failed s <= waypoints_failed (after o))%Z
  /\ (waypoints_reached (after o) + waypoints_failed (after o)
      <= waypoints_reached s + waypoints_failed s + n)%Z
  /\ (exists k, goals_sent (effects o) = firstn k (goals_of env i ws))
  /\ if loop_signalled env i ws then
       (exists x pre,
           res o = Raise x
           /\ effects o = pre ++ shutdown_events (shutdown_date env)
           /\ quiet pre = true)
       /\ is_shutdown (after o) = true
       /\ log_is_open (after o) = false
     else
       res o = Ok tt /\ live (after o) /\ quiet (effects o) = true
       /\ (waypoints_reached (after o) + waypoints_failed (after o)
           = waypoints_reached s + waypoints_failed s + n)%Z
       /\ goals_sent (effects o) = goals_of env i ws.
Proof.
  induction ws as [|wp rest IH]; intros i s H; cbv zeta.
  - cbn. repeat split; try lia; try assumption; try apply H.
    exists 0%nat. reflexivity.
  - cbn [navigate_loop loop_signalled goals_of].
    pose proof (body_spec (shutdown_date env) (iter env i) wp s H) as B.
    cbv zeta in B.
    destruct (loop_body (shutdown_date env) (iter env i) wp s)
      as [r1 s1 ev1] eqn:E.
    cbn [res after effects] in B. destruct B as (Bw & Bt & Bg & B).
    assert (Hlen : Z.of_nat (List.length (wp :: rest))
                   = (Z.of_nat (List.length rest) + 1)%Z)
      by (cbn [List.length]; lia).
    rewrite Hlen. clear Hlen.
    destruct (signalled (iter env i) wp); cbn [orb].
    + destruct B as ((x & pre & Hr & He & Hq) & Hsd & Hop & Hf & Hre).
      subst r1. rewrite (bind_raise _ _ E). cbn [res after effects].
      repeat split; try assumption; try lia.
      * exists 1%nat. rewrite Bg. reflexivity.
      * exists x, pre. auto.
    + destruct B as (Hr & Hl & Hq & Hc). subst r1.
      rewrite (bind_ok _ _ E). cbn [res after effects].
      specialize (IH (S i) s1 Hl). cbv zeta in IH.
      destruct IH as (Iw & It & Ir & If & Is & (k & Ig) & I).
      rewrite !goals_sent_app, Bg.
      split; [congruence|]. split; [congruence|].
      split; [lia|]. split; [lia|]. split; [lia|].
      split; [exists (S k); rewrite Ig; reflexivity|].
      destruct (loop_signalled env (S i) rest).
      * destruct I as ((x & pre & Jr & Je & Jq) & Jsd & Jop).
        repeat split; try assumption.
        exists x, (ev1 ++ pre). rewrite Je, app_assoc, quiet_app, Hq, Jq.
        auto.
      * destruct I as (Jr & Jl & Jq & Jc & Jg).
        rewrite quiet_app, Hq, Jq, Jg.
        repeat split; try assumption; try apply Jl; lia.
Qed.

Lemma file_write_open w s :
  log_is_open s = true ->
  file_write w s = {| res := Ok tt; after := s; effects := [LogWrite w] |}.
Proof.
  intro H. unfold file_write, bind, get. cbn. unfold log_is_open in H.
  destruct (log_file s) as [f|]; [|discriminate].
  destruct (closed f); [discriminate|]. reflexivity.
Qed.

Lemma write_all_open ws s :
  log_is_open s = true ->
  write_all ws s = {| res := Ok tt; after := s; effects := map LogWrite ws |}.
Proof.
  intro H. induction ws as [|w rest IH]; [reflexivity|].
  cbn [write_all map].
  rewrite (bind_ok _ _ (file_write_open w s H)), IH. reflexivity.
Qed.

Lemma success_rate_ok reached total :
  success_rate reached total = Ok (rate_value reached total).
Proof.
  unfold success_rate, rate_value, truediv_int.
  destruct total as [|n]; [reflexivity|]. cbn [Nat.ltb Nat.leb].
  destruct (Z.eqb_spec (Z.of_nat (S n)) 0); [lia|reflexivity].
Qed.

Lemma live_set_start_time t s : live s -> live (set_start_time t s).
Proof. intro H. destruct s. exact H. Qed.

(** [navigate_to_waypoints] is the loop, then the summary if no signal
    came. *)
Lemma navigate_spec env s :
  live s ->
  let o := navigate_to_waypoints env s in
  let l := navigate_loop env 0 (waypoints s)
             (set_start_time (Some (start_now env)) s) in
  if loop_signalled env 0 (waypoints s) then o = l
  else
    o = {| res := Ok tt; after := after l;
           effects := effects l
                      ++ map LogWrite (summary env (start_now env) (after l)) |}.
Proof.
  intros H. cbv zeta.
  pose proof (loop_spec env (waypoints s) 0 _
                (live_set_start_time (Some (start_now env)) s H)) as L.
  cbv zeta in L.
  unfold navigate_to_waypoints.
  erewrite bind_ok by reflexivity. cbn [res after effects app].
  erewrite bind_ok by reflexivity. cbn [res after effects app].
  replace (waypoints (set_start_time (Some (start_now env)) s))
    with (waypoints s) in * by (destruct s; reflexivity).
  destruct (navigate_loop env 0 (waypoints s)
              (set_start_time (Some (start_now env)) s))
    as [r1 s1 ev1] eqn:E.
  cbn [res after effects] in L.
  destruct L as (Lw & Lt & _ & _ & _ & _ & L).
  destruct (loop_signalled env 0 (waypoints s)).
  - destruct L as ((x & pre & Hr & _) & _). subst r1.
    rewrite (bind_raise _ _ E). reflexivity.
  - destruct L as (Hr & Hl & _). subst r1.
    rewrite (bind_ok _ _ E). cbn [res after effects].
    erewrite bind_ok by reflexivity. cbn [res after effects app].
    replace (start_time s1) with (Some (start_now env))
      by (rewrite Lt; destruct s; reflexivity).
    erewrite bind_ok by (apply write_all_open; apply Hl).
    cbn [res after effects].
    erewrite bind_ok
      by (unfold of_result; rewrite success_rate_ok; reflexivity).
    cbn [res after effects app].
    rewrite write_all_open by apply Hl. cbn [res after effects].
    unfold summary. rewrite map_app. reflexivity.
Qed.

(** ** Shutdown, and a whole session *)

Lemma live_stopped s :
  live s ->
  is_shutdown (stopped s) = true /\ log_is_open (stopped s) = false.
Proof. intro H. open_state s; intuition discriminate. Qed.

Lemma hook_live date s :
  log_is_open s = true ->
  shutdown_hook date s =
  {| res := Ok tt; after := set_log_file (close_file (log_file s)) s;
     effects := shutdown_events date |}.
Proof.
  intro H. unfold_body. cbn. rewrite H.
  open_state s; try discriminate. reflexivity.
Qed.

(** On a closed log the hook only cancels the goals. *)
Lemma hook_closed date s :
  log_is_open s = false ->
  shutdown_hook date s =
  {| res := Ok tt; after := s; effects := [CancelAllGoals] |}.
Proof. intro H. unfold_body. cbn. rewrite H. reflexivity. Qed.

Lemma signal_live date s :
  live s ->
  signal_shutdown date s =
  {| res := Ok tt; after := stopped s; effects := shutdown_events date |}.
Proof. intro H. live_state s H. unfold_body. exec. reflexivity. Qed.

Lemma signal_again date s :
  is_shutdown s = true ->
  signal_shutdown date s = {| res := Ok tt; after := s; effects := [] |}.
Proof. intro H. unfold_body. cbn. rewrite H. reflexivity. Qed.

Lemma sleep_live d date s :
  live s ->
  rospy_sleep d false date s =
  {| res := Ok tt; after := s; effects := [Sleep d] |}.
Proof. intro H. live_state s H. unfold_body. exec. reflexivity. Qed.

Lemma sleep_interrupted d date s :
  live s ->
  rospy_sleep d true date s =
  {| res := Raise ROSInterruptException; after := stopped s;
     effects := Sleep d :: shutdown_events date |}.
Proof. intro H. live_state s H. unfold_body. exec. reflexivity. Qed.

Lemma spin_live date s :
  live s ->
  rospy_spin date s =
  {| res := Ok tt; after := stopped s;
     effects := Spin :: shutdown_events date |}.
Proof.
  intro H. unfold rospy_spin.
  rewrite (bind_ok _ _ (eq_refl : emit Spin s = _)).
  rewrite (signal_live date s H). reflexivity.
Qed.

Lemma summary_counts_in_trace env t0 s :
  let tr := map LogWrite (summary env t0 s) in
  count is_close tr = 0%nat /\ count is_cancel tr = 0%nat
  /\ summaries tr = 1%nat.
Proof. repeat split. Qed.

Lemma try_except_spec m s :
  try_except m s =
  {| res := Ok tt; after := after (m s); effects := effects (m s) |}.
Proof. unfold try_except. destruct (m s). reflexivity. Qed.

Lemma sequence_interrupted_warmup env s :
  live s -> warmup_signal env = true ->
  sequence env s =
  {| res := Raise ROSInterruptException; after := stopped s;
     effects := Sleep 5 :: shutdown_events (shutdown_date env) |}.
Proof.
  intros H Hw. unfold sequence. rewrite Hw.
  rewrite (bind_raise _ _ (sleep_interrupted 5 (shutdown_date env) s H)).
  reflexivity.
Qed.

Lemma sequence_warm env s :
  live s -> warmup_signal env = false ->
  sequence env s =
  let o := bind (navigate_to_waypoints env)
                (fun _ => rospy_spin (shutdown_date env)) s in
  {| res := res o; after := after o; effects := Sleep 5 :: effects o |}.
Proof.
  intros H Hw. unfold sequence. rewrite Hw.
  rewrite (bind_ok _ _ (sleep_live 5 (shutdown_date env) s H)).
  reflexivity.
Qed.

(** The trace of a session ends with the shutdown hook's three events,
    and nothing before them closes the log or cancels goals; a summary is
    among them exactly when no signal came before the loop had ended. *)
Lemma session_spec env s :
  live s ->
  let o := session env s in
  let n := Z.of_nat (List.length (waypoints s)) in
  res o = Ok tt
  /\ is_shutdown (after o) = true
  /\ log_is_open (after o) = false
  /\ waypoints (after o) = waypoints s
  /\ (waypoints_reached s <= waypoints_reached (after o))%Z
  /\ (waypoints_failed s <= waypoints_failed (after o))%Z
  /\ (waypoints_reached (after o) + waypoints_failed (after o)
      <= waypoints_reached s + waypoints_failed s + n)%Z
  /\ (interrupted env (waypoints s) = false ->
      (waypoints_reached (after o) + waypoints_failed (after o)
       = waypoints_reached s + waypoints_failed s + n)%Z
      /\ goals_sent (effects o) = goals_of env 0 (waypoints s))
  /\ (exists k,
         goals_sent (effects o) = firstn k (goals_of env 0 (waypoints s)))
  /\ exists pre,
      effects o = pre ++ shutdown_events (shutdown_date env)
      /\ count is_close pre = 0%nat
      /\ count is_cancel pre = 0%nat
      /\ summaries pre
         = if interrupted env (waypoints s) then 0%nat else 1%nat.
Proof.
  intros H. cbv zeta. unfold session, interrupted.
  rewrite (bind_ok _ _ (try_except_spec (sequence env) s)).
  destruct (warmup_signal env) eqn:Hw; cbn [orb].
  - rewrite (sequence_interrupted_warmup env s H Hw).
    cbn [res after effects].
    destruct (live_stopped s H) as (Hs1 & Hs2).
    rewrite (signal_again _ _ Hs1). cbn [res after effects].
    rewrite app_nil_r.
    repeat split; try assumption;
      try (open_state s; cbn; first [reflexivity | lia]).
    + exists 0%nat. reflexivity.
    + exists [Sleep 5]. repeat split.
  - rewrite (sequence_warm env s H Hw). cbv zeta.
    pose proof (navigate_spec env s H) as N. cbv zeta in N.
    pose proof (loop_spec env (waypoints s) 0 _
                  (live_set_start_time (Some (start_now env)) s H)) as L.
    cbv zeta in L.
    replace (waypoints (set_start_time (Some (start_now env)) s))
      with (waypoints s) in * by (destruct s; reflexivity).
    replace (waypoints_reached (set_start_time (Some (start_now env)) s))
      with (waypoints_reached s) in * by (destruct s; reflexivity).
    replace (waypoints_failed (set_start_time (Some (start_now env)) s))
      with (waypoints_failed s) in * by (destruct s; reflexivity).
    destruct (navigate_loop env 0 (waypoints s)
                (set_start_time (Some (start_now env)) s))
      as [r1 s1 ev1] eqn:E.
    cbn [res after effects] in *.
    destruct L as (Lw & Lt & Lr & Lf & Ls & (k & Lg) & L).
    destruct (loop_signalled env 0 (waypoints s)).
    + destruct L as ((x & pre & Hr & He & Hq) & Hsd & Hop). subst r1.
      rewrite (bind_raise _ _ N). cbn [res after effects].
      rewrite (signal_again _ _ Hsd). cbn [res after effects].
      rewrite app_nil_r.
      repeat split; try assumption; try lia.
      * exists k. exact Lg.
      * exists (Sleep 5 :: pre). rewrite He.
        destruct (quiet_counts pre Hq) as (Q1 & Q2 & Q3).
        repeat split.
        -- unfold count in *. cbn. exact Q1.
        -- unfold count in *. cbn. exact Q2.
        -- unfold summaries in *. cbn. exact Q3.
    + destruct L as (Hr & Hl & Hq & Hc & Hg). subst r1.
      rewrite (bind_ok _ _ N). cbn [res after effects].
      rewrite (spin_live (shutdown_date env) s1 Hl).
      cbn [res after effects].
      destruct (live_stopped s1 Hl) as (Hs1 & Hs2).
      rewrite (signal_again _ _ Hs1). cbn [res after effects].
      rewrite app_nil_r.
      assert (Hgs : goals_sent
                      (Sleep 5 :: (ev1 ++ map LogWrite
                         (summary env (start_now env) s1))
                         ++ Spin :: shutdown_events (shutdown_date env))
                    = goals_sent ev1).
      { cbn [goals_sent]. rewrite !goals_sent_app.
        change (goals_sent (map LogWrite (summary env (start_now env) s1)))
          with (@nil MoveBaseGoal).
        cbn. rewrite !app_nil_r. reflexivity. }
      repeat split; try assumption;
        try (open_state s1; cbn; first [congruence | lia]).
      all: try (rewrite Hgs; first [exact Hg | exists k; exact Lg]).
      exists (Sleep 5 :: (ev1 ++ map LogWrite
                (summary env (start_now env) s1)) ++ [Spin]).
      destruct (quiet_counts ev1 Hq) as (Q1 & Q2 & Q3).
      destruct (summary_counts_in_trace env (start_now env) s1)
        as (S1 & S2 & S3).
      cbv zeta in S1, S2, S3.
      repeat split.
      * cbn [app]. rewrite <- !app_assoc. reflexivity.
      * change (Sleep 5 :: ?l) with ([Sleep 5] ++ l).
        rewrite !count_app, Q1, S1. reflexivity.
      * change (Sleep 5 :: ?l) with ([Sleep 5] ++ l).
        rewrite !count_app, Q2, S2. reflexivity.
      * change (Sleep 5 :: ?l) with ([Sleep 5] ++ l).
        rewrite !summaries_app, Q3, S3. reflexivity.
Qed.

(** ** The constructor and [main] *)

Lemma init_spec os :
  CornerNavigator_init os blank =
  if creatable os (log_dir os) then
    if open_ok os (log_filename os) then
      {| res := Ok tt; after := constructed os;
         effects := (if path_exists os (log_dir os) then []
                     else [MakeDirs (log_dir os)])
                    ++ OpenLog (log_filename os)
                       :: map LogWrite (header (start_date os)) |}
    else
      {| res := Raise OSError;
         after := set_current_odom None (set_waypoints route blank);
         effects := (if path_exists os (log_dir os) then []
                     else [MakeDirs (log_dir os)])
                    ++ [OpenLog (log_filename os)] |}
  else
    {| res := Raise OSError;
       after := set_current_odom None (set_waypoints route blank);
       effects := [MakeDirs (log_dir os)] |}.
Proof.
  unfold CornerNavigator_init, creatable, makedirs, open_log, log_filename,
    bind, modify, emit, ret, raise.
  cbn -[route header log_dir path_join].
  destruct (path_exists os (log_dir os)); cbn -[route header log_dir path_join].
  - destruct (open_ok os _); reflexivity.
  - destruct (makedirs_ok os (log_dir os)); cbn -[route header log_dir path_join];
      [|reflexivity].
    destruct (open_ok os _); reflexivity.
Qed.

Lemma live_constructed os : live (constructed os).
Proof. repeat split. Qed.

(** [main] is the constructor followed by the session, when the
    constructor succeeds. *)
Lemma main_spec os env :
  res (CornerNavigator_init os blank) = Ok tt ->
  CornerNavigator_init os blank =
    {| res := Ok tt; after := constructed os;
       effects := effects (CornerNavigator_init os blank) |}
  /\ run os env =
     {| res := res (session env (constructed os));
        after := after (session env (constructed os));
        effects := effects (CornerNavigator_init os blank)
                   ++ effects (session env (constructed os)) |}.
Proof.
  intro H.
  assert (I : CornerNavigator_init os blank =
              {| res := Ok tt; after := constructed os;
                 effects := effects (CornerNavigator_init os blank) |}).
  { rewrite init_spec in *.
    destruct (creatable os (log_dir os)); [|discriminate].
    destruct (open_ok os (log_filename os)); [|discriminate].
    reflexivity. }
  split; [exact I|].
  unfold run, main, session.
  rewrite !(bind_ok _ _ (try_except_spec _ _)).
  rewrite (bind_ok _ _ I). cbn [res after effects].
  rewrite app_assoc. reflexivity.
Qed.

(** When the constructor raises, nothing is registered, and the process
    ends having done nothing more. *)
Lemma main_init_raises os env x :
  res (CornerNavigator_init os blank) = Raise x ->
  effects (run os env) = effects (CornerNavigator_init os blank)
  /\ log_is_open (after (run os env)) = false.
Proof.
  intro H. unfold run, main.
  rewrite (bind_ok _ _ (try_except_spec _ _)).
  destruct (CornerNavigator_init os blank) as [r s1 ev] eqn:E.
  cbn [res] in H. subst r. rewrite (bind_raise _ _ E).
  cbn [res after effects].
  assert (Hs : s1 = set_current_odom None (set_waypoints route blank)).
  { rewrite init_spec in E.
    destruct (creatable os (log_dir os));
      [destruct (open_ok os (log_filename os)); [discriminate|]|];
      inversion E; reflexivity. }
  subst s1. unfold_body. cbn. rewrite app_nil_r. split; reflexivity.
Qed.

(** ** What the node keeps of the odometry *)

Section Keeps.

Variable P : CornerNavigator -> Prop.
Variable Q : log_entry -> Prop.
Hypothesis P_odom :
  forall s s', current_odom s = current_odom s' -> P s -> P s'.
Hypothesis Q_seen : forall s r, P s -> actual r = seen s -> Q r.

Lemma keeps_ret {A} (a : A) : keeps P Q (ret a).
Proof. intros s H. split; [exact H | constructor]. Qed.

Lemma keeps_raise {A} x : keeps P Q (@raise A x).
Proof. intros s H. split; [exact H | constructor]. Qed.

Lemma keeps_of_result {A} (r : result A) : keeps P Q (of_result r).
Proof. intros s H. split; [exact H | constructor]. Qed.

Lemma keeps_get : keeps P Q get.
Proof. intros s H. split; [exact H | constructor]. Qed.

Lemma keeps_bind {A B} (m : M A) (k : A -> M B) :
  keeps P Q m -> (forall a, keeps P Q (k a)) -> keeps P Q (bind m k).
Proof.
  intros Hm Hk s H. unfold bind.
  destruct (Hm s H) as (H1 & R1).
  destruct (m s) as [[a|x] s1 ev1]; cbn [res after effects] in *.
  - destruct (Hk a s1 H1) as (H2 & R2).
    destruct (k a s1) as [r2 s2 ev2]; cbn [res after effects] in *.
    split; [exact H2|]. rewrite rows_app. apply Forall_app. auto.
  - auto.
Qed.

Lemma keeps_try m : keeps P Q m -> keeps P Q (try_except m).
Proof.
  intros Hm s H. rewrite try_except_spec. exact (Hm s H).
Qed.

Lemma keeps_modify f :
  (forall s, current_odom (f s) = current_odom s) -> keeps P Q (modify f).
Proof.
  intros Hf s H. split; [|constructor].
  apply (P_odom s); [symmetry; apply Hf | exact H].
Qed.

Lemma keeps_emit e : rows [e] = [] -> keeps P Q (emit e).
Proof.
  intros He s H. split; [exact H|]. cbn [emit effects].
  rewrite He. constructor.
Qed.

Lemma keeps_write_text t : keeps P Q (file_write (Text t)).
Proof.
  intros s H. unfold file_write, bind, get, emit, raise.
  destruct s as [? ? [[? []]|] ? ? ? ? ?]; cbn; split;
    first [exact H | constructor].
Qed.

Lemma keeps_write_all ts : keeps P Q (write_all (map Text ts)).
Proof.
  induction ts as [|t ts IH]; cbn [map write_all].
  - apply keeps_ret.
  - apply keeps_bind; [apply keeps_write_text | intro; exact IH].
Qed.

Lemma keeps_flush : keeps P Q file_flush.
Proof.
  intros s H. unfold file_flush, bind, get, emit, raise.
  destruct s as [? ? [[? []]|] ? ? ? ? ?]; cbn; split;
    first [exact H | constructor].
Qed.

Lemma keeps_close : keeps P Q file_close.
Proof.
  intros s H. unfold file_close, bind, get, emit, raise, modify, ret.
  destruct s as [? ? [[? []]|] ? ? ? ? ?]; cbn; split;
    try constructor; try exact H.
  eapply P_odom; [|exact H]. reflexivity.
Qed.

(** The row [log_waypoint] writes shows what the cell holds. *)
Lemma keeps_log_waypoint t n x y st :
  keeps P Q (log_waypoint t n x y st).
Proof.
  intros s H. unfold log_waypoint, file_write, file_flush, bind, get,
    emit, raise.
  destruct s as [? ? [[? []]|] ? ? ? ? ?]; cbn; split;
    try exact H; repeat constructor.
  eapply Q_seen; [exact H | reflexivity].
Qed.

Lemma keeps_hook date : keeps P Q (shutdown_hook date).
Proof.
  unfold shutdown_hook, cancel_all_goals.
  apply keeps_bind; [apply keeps_emit; reflexivity | intros _].
  apply keeps_bind; [apply keeps_get | intros s0].
  destruct (log_is_open s0); [|apply keeps_ret].
  apply keeps_bind; [apply keeps_write_text | intros _; apply keeps_close].
Qed.

Lemma keeps_signal date : keeps P Q (signal_shutdown date).
Proof.
  unfold signal_shutdown.
  apply keeps_bind; [apply keeps_get | intros s0].
  destruct (is_shutdown s0); [apply keeps_ret|].
  apply keeps_bind; [apply keeps_modify; intros []; reflexivity | intros _].
  destruct (shutdown_hooks s0); [apply keeps_hook | apply keeps_ret].
Qed.

Lemma keeps_deliver b date : keeps P Q (deliver_signal b date).
Proof. destruct b; [apply keeps_signal | apply keeps_ret]. Qed.

Lemma keeps_sleep d b date : keeps P Q (rospy_sleep d b date).
Proof.
  unfold rospy_sleep.
  apply keeps_bind; [apply keeps_emit; reflexivity | intros _].
  apply keeps_bind; [apply keeps_deliver | intros _].
  apply keeps_bind; [apply keeps_get | intros s0].
  destruct (is_shutdown s0); [apply keeps_raise | apply keeps_ret].
Qed.

Lemma keeps_spin date : keeps P Q (rospy_spin date).
Proof.
  unfold rospy_spin.
  apply keeps_bind; [apply keeps_emit; reflexivity | intros _].
  apply keeps_signal.
Qed.

Lemma keeps_wait d b date done : keeps P Q (wait_for_result d b date done).
Proof.
  unfold wait_for_result.
  apply keeps_bind; [apply keeps_emit; reflexivity | intros _].
  apply keeps_bind; [apply keeps_deliver | intros _; apply keeps_ret].
Qed.

(** From here on the odometry feed matters. *)
Variable env : run_env.
Hypothesis feed_keeps :
  forall i msgs, In msgs (feeds (iter env i)) ->
                 keeps P Q (odom_feed msgs).

Lemma keeps_log_at i e wp st :
  In (odom_msgs e) (feeds (iter env i)) ->
  keeps P Q (log_at e (wp_name wp) (wp_x wp) (wp_y wp) st).
Proof.
  intro Hin. unfold log_at.
  apply keeps_bind; [exact (feed_keeps i _ Hin) | intros _].
  apply keeps_log_waypoint.
Qed.

Lemma keeps_body i wp :
  keeps P Q (loop_body (shutdown_date env) (iter env i) wp).
Proof.
  unfold loop_body, send_goal, incr_reached, incr_failed.
  assert (H1 : In (odom_msgs (at_sent (iter env i))) (feeds (iter env i)))
    by (left; reflexivity).
  assert (H2 : In (odom_msgs (at_result (iter env i))) (feeds (iter env i)))
    by (right; left; reflexivity).
  assert (H3 : In (odom_msgs (at_pause (iter env i))) (feeds (iter env i)))
    by (right; right; left; reflexivity).
  apply keeps_bind; [apply (keeps_log_at i _ wp _ H1) | intros _].
  apply keeps_bind; [apply keeps_emit; reflexivity | intros _].
  apply keeps_bind; [apply keeps_wait | intros success].
  destruct (negb success).
  - apply keeps_bind; [apply (keeps_log_at i _ wp _ H2) | intros _].
    apply keeps_modify; intros []; reflexivity.
  - destruct (status_eqb (wait_state (iter env i)) SUCCEEDED).
    + apply keeps_bind; [apply (keeps_log_at i _ wp _ H2) | intros _].
      apply keeps_bind;
        [apply keeps_modify; intros []; reflexivity | intros _].
      destruct (0 <? wp_pause wp)%float; [|apply keeps_ret].
      apply keeps_bind; [apply keeps_sleep | intros _].
      apply (keeps_log_at i _ wp _ H3).
    + apply keeps_bind; [apply (keeps_log_at i _ wp _ H2) | intros _].
      apply keeps_modify; intros []; reflexivity.
Qed.

Lemma keeps_loop ws : forall i, keeps P Q (navigate_loop env i ws).
Proof.
  induction ws as [|wp rest IH]; intro i; cbn [navigate_loop].
  - apply keeps_ret.
  - apply keeps_bind; [apply keeps_body | intros _; apply IH].
Qed.

Lemma keeps_navigate : keeps P Q (navigate_to_waypoints env).
Proof.
  unfold navigate_to_waypoints.
  apply keeps_bind; [apply keeps_modify; intros []; reflexivity | intros _].
  apply keeps_bind; [apply keeps_get | intros s0].
  apply keeps_bind; [apply keeps_loop | intros _].
  apply keeps_bind; [apply keeps_get | intros s1].
  destruct (start_time s1); [|apply keeps_raise].
  apply keeps_bind; [apply (keeps_write_all
    [_; _; _; _; _; _; _]) | intros _].
  apply keeps_bind; [apply keeps_of_result | intros rate].
  apply (keeps_write_all [_; _; _]).
Qed.

Lemma keeps_session : keeps P Q (session env).
Proof.
  unfold session, sequence.
  apply keeps_bind; [|intros _; apply keeps_signal].
  apply keeps_try.
  apply keeps_bind; [apply keeps_sleep | intros _].
  apply keeps_bind; [apply keeps_navigate | intros _; apply keeps_spin].
Qed.

End Keeps.

(** No callback empties the cell. *)
Lemma feed_keeps_odom msgs : keeps has_odom with_actual (odom_feed msgs).
Proof.
  intros s H. rewrite odom_feed_spec. cbn [after effects]. split; [|constructor].
  unfold has_odom, heard in *. revert s H.
  induction msgs as [|m ms IH]; intros s H.
  - destruct s; exact H.
  - specialize (IH (set_current_odom (Some m) s)).
    destruct s; cbn in *. apply IH. discriminate.
Qed.

(** A silent feed leaves an empty cell empty. *)
Lemma feed_keeps_none :
  keeps (fun s => current_odom s = None)
        (fun r => actual r = None) (odom_feed []).
Proof. intros s H. split; [exact H | constructor]. Qed.

(** ** The claims *)

Lemma init_effects_quiet os :
  res (CornerNavigator_init os blank) = Ok tt ->
  let tr := effects (CornerNavigator_init os blank) in
  count is_close tr = 0%nat /\ count is_cancel tr = 0%nat
  /\ summaries tr = 0%nat /\ goals_sent tr = [] /\ rows tr = [].
Proof.
  intro H. cbv zeta. rewrite init_spec in *.
  destruct (creatable os (log_dir os)); [|discriminate].
  destruct (open_ok os (log_filename os)); [|discriminate].
  cbn [effects].
  destruct (path_exists os (log_dir os)); repeat split.
Qed.


Lemma loop_app env pre post : forall i s,
  navigate_loop env i (pre ++ post) s =
  bind (navigate_loop env i pre)
       (fun _ => navigate_loop env (i + List.length pre) post) s.
Proof.
  induction pre as [|wp pre IH]; intros i s; cbn [app navigate_loop List.length].
  - unfold bind, ret. rewrite Nat.add_0_r.
    destruct (navigate_loop env i post s). reflexivity.
  - unfold bind in *.
    destruct (loop_body (shutdown_date env) (iter env i) wp s)
      as [[[]|x] s1 ev1]; [|reflexivity].
    rewrite IH. replace (S i + List.length pre)%nat
      with (i + S (List.length pre))%nat by lia.
    destruct (navigate_loop env (S i) pre s1) as [[[]|y] s2 ev2];
      [|reflexivity].
    destruct (navigate_loop env (i + S (List.length pre)) post s2).
    rewrite app_assoc. reflexivity.
Qed.


Lemma in_summary_rate env t0 s :
  In (LogWrite (Text ("Success Rate: "
                      ++ Py.format_f 1 (rate_value (waypoints_reached s)
                                          (List.length (waypoints s)))
                      ++ "%" ++ nl)%string))
     (map LogWrite (summary env t0 s)).
Proof.
  unfold summary. rewrite map_app. apply in_or_app. right. left. reflexivity.
Qed.


(** C4.  A turn whose wait expires (no result within the timeout, no
    shutdown) sends its goal once and cancels nothing, writes a "Timeout"
    row after the "Goal Sent" row, adds one to [failed] and leaves
    [reached], and the loop goes on with the next waypoint: it does not
    come back to this one. *)
Theorem C4_timeout env i wp rest s :
  live s ->
  wait_signal (iter env i) = false ->
  outcome_of (iter env i) = TimedOut ->
  let e := iter env i in
  let o := loop_body (shutdown_date env) e wp s in
  res o = Ok tt
  /\ effects o
     = dispatch e wp s
       ++ row (at_result e) wp "Timeout" (heard (odom_msgs (at_sent e)) s)
  /\ map status (rows (effects o)) = ["Goal Sent"; "Timeout"]
  /\ goals_sent (effects o) = [goal_of e wp]
  /\ count is_cancel (effects o) = 0%nat
  /\ waypoints_failed (after o) = (waypoints_failed s + 1)%Z
  /\ waypoints_reached (after o) = waypoints_reached s
  /\ live (after o)
  /\ let next := navigate_loop env (S i) rest (after o) in
     navigate_loop env i (wp :: rest) s
     = {| res := res next; after := after next;
          effects := effects o ++ effects next |}.
Proof.
  intros H Hs Ho. cbv zeta.
  pose proof (body_timeout (shutdown_date env) (iter env i) wp s H Hs Ho)
    as B.
  rewrite B. cbn [res after effects].
  repeat split; try (open_state s; intuition (try discriminate; reflexivity)).
  cbn [navigate_loop]. rewrite (bind_ok _ _ B). reflexivity.
Qed.

(** C5.  A turn that times out leaves [reached] as it was.  A turn that
    succeeds with a pause of zero (or any pause that is not positive)
    writes its "Goal Sent" and "Reached" rows and nothing else, and does
    not sleep.  Whenever a turn sleeps or writes a "Pause Complete" row,
    its outcome was Succeeded and its pause positive; and a turn that
    succeeds with a positive pause, undisturbed, sleeps once and then
    writes "Pause Complete". *)
Theorem C5_outcomes date e wp s :
  live s ->
  let o := loop_body date e wp s in
  (outcome_of e = TimedOut ->
   waypoints_reached (after o) = waypoints_reached s)
  /\ (wait_signal e = false -> outcome_of e = Succeeded ->
      wp_pause wp = 0%float \/ (0 <? wp_pause wp)%float = false ->
      res o = Ok tt
      /\ map status (rows (effects o)) = ["Goal Sent"; "Reached"]
      /\ count is_sleep (effects o) = 0%nat
      /\ waypoints_reached (after o) = (waypoints_reached s + 1)%Z)
  /\ (count is_sleep (effects o) <> 0%nat
      \/ existsb (has_status "Pause Complete") (rows (effects o)) = true ->
      outcome_of e = Succeeded /\ (0 <? wp_pause wp)%float = true)
  /\ (wait_signal e = false -> outcome_of e = Succeeded ->
      (0 <? wp_pause wp)%float = true -> dwell_signal e = false ->
      map status (rows (effects o))
        = ["Goal Sent"; "Reached"; "Pause Complete"]
      /\ filter is_sleep (effects o) = [Sleep (wp_pause wp)]).
Proof.
  intros H. cbv zeta. repeat split.
  - intro Ho. destruct (wait_signal e) eqn:Hs.
    + rewrite (body_wait_interrupted date e wp s H Hs).
      open_state s; reflexivity.
    + rewrite (body_timeout date e wp s H Hs Ho).
      open_state s; reflexivity.
  - rewrite (body_reached date e wp s H H0 H1); [reflexivity|].
    destruct H2 as [Hz|Hz]; [rewrite Hz; reflexivity | exact Hz].
  - rewrite (body_reached date e wp s H H0 H1); [reflexivity|].
    destruct H2 as [Hz|Hz]; [rewrite Hz; reflexivity | exact Hz].
  - rewrite (body_reached date e wp s H H0 H1); [reflexivity|].
    destruct H2 as [Hz|Hz]; [rewrite Hz; reflexivity | exact Hz].
  - rewrite (body_reached date e wp s H H0 H1);
      [open_state s; reflexivity|].
    destruct H2 as [Hz|Hz]; [rewrite Hz; reflexivity | exact Hz].
  - revert H0. body_split date e wp H; cbn [effects];
      intros [Hc|Hc]; first [reflexivity | exfalso; apply Hc; reflexivity
                            | discriminate Hc].
  - revert H0. body_split date e wp H; cbn [effects];
      intros [Hc|Hc]; first [reflexivity | exfalso; apply Hc; reflexivity
                            | discriminate Hc].
  - rewrite (body_paused date e wp s H H0 H1 H2 H3). reflexivity.
  - rewrite (body_paused date e wp s H H0 H1 H2 H3). reflexivity.
Qed.


(** C7, as amended.  The directory under the home directory is used when
    the package cannot be located, and only then; once the directory is
    chosen there is no second attempt: if it is missing and cannot be
    created the constructor raises, the program ends having only tried to
    create that one directory, and no log is opened.  If the directory is
    there or can be created, and the file can be opened, the constructor
    succeeds. *)
Theorem C7_log_directory os env :
  (rospack_get_path os = None -> log_dir os = expanduser os home_logs)
  /\ (forall package_path, rospack_get_path os = Some package_path ->
        log_dir os = path_join package_path "logs")
  /\ (creatable os (log_dir os) = false ->
      res (CornerNavigator_init os blank) = Raise OSError
      /\ effects (run os env) = [MakeDirs (log_dir os)]
      /\ log_is_open (after (run os env)) = false)
  /\ (creatable os (log_dir os) = true ->
      open_ok os (log_filename os) = true ->
      res (CornerNavigator_init os blank) = Ok tt).
Proof.
  repeat split.
  - intro Hn. unfold log_dir. rewrite Hn. reflexivity.
  - intros p Hp. unfold log_dir. rewrite Hp. reflexivity.
  - rewrite init_spec, H. reflexivity.
  - assert (E : res (CornerNavigator_init os blank) = Raise OSError)
      by (rewrite init_spec, H; reflexivity).
    destruct (main_init_raises os env OSError E) as (M & _).
    rewrite M, init_spec, H. reflexivity.
  - assert (E : res (CornerNavigator_init os blank) = Raise OSError)
      by (rewrite init_spec, H; reflexivity).
    apply (main_init_raises os env OSError E).
  - intros Hc Ho. rewrite init_spec, Hc, Ho. reflexivity.
Qed.

Lemma goals_of_in env ws : forall i k g,
  In g (firstn k (goals_of env i ws)) ->
  exists j wp, nth_error ws j = Some wp /\ g = goal_of (iter env (i + j)) wp.
Proof.
  induction ws as [|wp rest IH]; intros i k g Hin.
  - destruct k; contradiction.
  - destruct k as [|k]; [contradiction|]. cbn in Hin.
    destruct Hin as [<- | Hin].
    + exists 0%nat, wp. rewrite Nat.add_0_r. split; reflexivity.
    + destruct (IH (S i) k g Hin) as (j & wp' & Hn & Hg).
      exists (S j), wp'. split; [exact Hn|].
      rewrite Hg. f_equal. f_equal. lia.
Qed.

(** C8.  The goal built from [(x, y)] and a yaw is in the frame "map", at
    the position [(x, y, 0)], with the orientation
    [(0, 0, sin (yaw / 2), cos (yaw / 2))]; the yaw defaults to zero.
    Every goal a session sends is the goal so built, with the default
    yaw, from a waypoint of the route, and when no shutdown signal comes
    before the loop has ended there is one such goal per waypoint, in the
    order of the route. *)
Theorem C8_goal env s :
  live s ->
  (forall t x y yaw,
      create_goal t x y yaw
      = {| frame_id := "map"; stamp := t;
           position := {| px := x; py := y; pz := 0 |};
           orientation :=
             {| qx := 0; qy := 0;
                qz := math_sin (yaw / 2); qw := math_cos (yaw / 2) |} |})
  /\ default_orientation_yaw = 0%float
  /\ (forall g, In g (goals_sent (effects (session env s))) ->
        exists i wp,
          nth_error (waypoints s) i = Some wp
          /\ g = {| frame_id := "map"; stamp := goal_stamp (iter env i);
                    position := {| px := wp_x wp; py := wp_y wp; pz := 0 |};
                    orientation :=
                      {| qx := 0; qy := 0;
                         qz := math_sin (0 / 2);
                         qw := math_cos (0 / 2) |} |})
  /\ (interrupted env (waypoints s) = false ->
      goals_sent (effects (session env s)) = goals_of env 0 (waypoints s)).
Proof.
  intro H. split; [reflexivity|]. split; [reflexivity|].
  destruct (session_spec env s H)
    as (_ & _ & _ & _ & _ & _ & _ & Hc & (k & Hk) & _).
  split.
  - intros g Hg. rewrite Hk in Hg.
    destruct (goals_of_in env (waypoints s) 0 k g Hg) as (j & wp & Hn & ->).
    exists j, wp. split; [exact Hn | reflexivity].
  - intro Hi. apply (Hc Hi).
Qed.

Lemma append_assoc (a b c : string) :
  ((a ++ b) ++ c)%string = (a ++ b ++ c)%string.
Proof. induction a as [|ch a IH]; cbn; [reflexivity | rewrite IH; reflexivity]. Qed.

Lemma format_entry_columns r :
  format_entry r = (columns r ++ odom_info (actual r) ++ nl)%string.
Proof.
  unfold format_entry, columns. rewrite !append_assoc. reflexivity.
Qed.

Lemma silent_feed_keeps env :
  silent env ->
  forall i msgs, In msgs (feeds (iter env i)) ->
    keeps (fun s => current_odom s = None) (fun r => actual r = None)
          (odom_feed msgs).
Proof.
  intros Hs i msgs Hin. rewrite (Hs i msgs Hin). apply feed_keeps_none.
Qed.


(** C10.  In a turn that succeeds with a positive pause, the "Reached"
    row is written and [reached] incremented before the pause starts.
    If the shutdown signal arrives during the pause, the turn and with it
    the loop end there with [ROSInterruptException]: the waypoint is
    counted in [reached], and no "Pause Complete" row was written for it;
    the trace goes from the "Reached" row to the sleep and then straight
    to the shutdown hook.  Without the signal the "Pause Complete" row
    follows the sleep. *)
Theorem C10_reached_before_dwell env i wp rest s :
  live s ->
  wait_signal (iter env i) = false ->
  outcome_of (iter env i) = Succeeded ->
  (0 <? wp_pause wp)%float = true ->
  let e := iter env i in
  let o := loop_body (shutdown_date env) e wp s in
  let reached_row :=
    row (at_result e) wp "Reached" (heard (odom_msgs (at_sent e)) s) in
  (exists rest_of_turn,
      effects o = dispatch e wp s ++ reached_row
                  ++ Sleep (wp_pause wp) :: rest_of_turn)
  /\ waypoints_reached (after o) = (waypoints_reached s + 1)%Z
  /\ waypoints_failed (after o) = waypoints_failed s
  /\ (dwell_signal e = true ->
      res o = Raise ROSInterruptException
      /\ effects o = dispatch e wp s ++ reached_row
                     ++ [Sleep (wp_pause wp)]
                     ++ shutdown_events (shutdown_date env)
      /\ map status (rows (effects o)) = ["Goal Sent"; "Reached"]
      /\ existsb (has_status "Pause Complete") (rows (effects o)) = false
      /\ navigate_loop env i (wp :: rest) s = o)
  /\ (dwell_signal e = false ->
      res o = Ok tt
      /\ effects o = dispatch e wp s ++ reached_row
                     ++ [Sleep (wp_pause wp)]
                     ++ row (at_pause e) wp "Pause Complete" (awaited e s)).
Proof.
  intros H Hs Ho Hp. cbv zeta.
  destruct (dwell_signal (iter env i)) eqn:Hd.
  - pose proof (body_dwell_interrupted (shutdown_date env) (iter env i)
                  wp s H Hs Ho Hp Hd) as B.
    rewrite B. cbn [res after effects].
    split; [eexists; reflexivity|].
    split; [open_state s; reflexivity|].
    split; [open_state s; reflexivity|].
    split; [|intro; discriminate].
    intros _. repeat split.
    cbn [navigate_loop]. rewrite (bind_raise _ _ B). reflexivity.
  - pose proof (body_paused (shutdown_date env) (iter env i)
                  wp s H Hs Ho Hp Hd) as B.
    rewrite B. cbn [res after effects].
    split; [eexists; reflexivity|].
    split; [open_state s; reflexivity|].
    split; [open_state s; reflexivity|].
    split; [intro; discriminate|].
    intros _. split; reflexivity.
Qed.

(** ** The whole session, exactly *)

Lemma session_result env s :
  live s ->
  let l := session_loop env s in
  let date := shutdown_date env in
  session env s =
  if warmup_signal env then
    {| res := Ok tt; after := stopped s;
       effects := Sleep 5 :: shutdown_events date |}
  else if loop_signalled env 0 (waypoints s) then
    {| res := Ok tt; after := after l; effects := Sleep 5 :: effects l |}
  else
    {| res := Ok tt; after := stopped (after l);
       effects := Sleep 5
                  :: (effects l
                      ++ map LogWrite (summary env (start_now env) (after l)))
                  ++ Spin :: shutdown_events date |}.
Proof.
  intros H. cbv zeta. unfold session, session_loop.
  rewrite (bind_ok _ _ (try_except_spec (sequence env) s)).
  destruct (warmup_signal env) eqn:Hw.
  - rewrite (sequence_interrupted_warmup env s H Hw). cbn [res after effects].
    destruct (live_stopped s H) as (Hs1 & _).
    rewrite (signal_again _ _ Hs1). cbn [res after effects].
    rewrite app_nil_r. reflexivity.
  - rewrite (sequence_warm env s H Hw). cbv zeta.
    pose proof (navigate_spec env s H) as N. cbv zeta in N.
    pose proof (loop_spec env (waypoints s) 0 _
                  (live_set_start_time (Some (start_now env)) s H)) as L.
    cbv zeta in L.
    replace (waypoints (set_start_time (Some (start_now env)) s))
      with (waypoints s) in * by (destruct s; reflexivity).
    destruct (navigate_loop env 0 (waypoints s)
                (set_start_time (Some (start_now env)) s))
      as [r1 s1 ev1] eqn:E.
    cbn [res after effects] in *.
    destruct L as (_ & _ & _ & _ & _ & _ & L).
    destruct (loop_signalled env 0 (waypoints s)).
    + destruct L as ((x & pre & Hr & _) & Hsd & _). subst r1.
      rewrite (bind_raise _ _ N). cbn [res after effects].
      rewrite (signal_again _ _ Hsd). cbn [res after effects].
      rewrite app_nil_r. reflexivity.
    + destruct L as (Hr & Hl & _). subst r1.
      rewrite (bind_ok _ _ N). cbn [res after effects].
      rewrite (spin_live (shutdown_date env) s1 Hl). cbn [res after effects].
      destruct (live_stopped s1 Hl) as (Hs1 & _).
      rewrite (signal_again _ _ Hs1). cbn [res after effects].
      rewrite app_nil_r. reflexivity.
Qed.

(** A property of traces that holds of nothing, is kept by concatenation
    and holds of every turn taken from a live node, for the waypoints that
    satisfy [W], holds of the loop over such waypoints. *)
Lemma loop_emits (T : list event -> Prop) (W : waypoint -> Prop) env :
  T [] ->
  (forall a b, T a -> T b -> T (a ++ b)) ->
  (forall i wp s, W wp -> live s ->
     T (effects (loop_body (shutdown_date env) (iter env i) wp s))) ->
  forall ws i s, Forall W ws -> live s ->
    T (effects (navigate_loop env i ws s)).
Proof.
  intros Tnil Tapp Tbody.
  induction ws as [|wp rest IH]; intros i s HW H; [exact Tnil|].
  cbn [navigate_loop].
  pose proof (Tbody i wp s (Forall_inv HW) H) as B.
  pose proof (body_spec (shutdown_date env) (iter env i) wp s H) as S.
  cbv zeta in S.
  destruct (loop_body (shutdown_date env) (iter env i) wp s)
    as [[[]|x] s1 ev1] eqn:E; cbn [res after effects] in *.
  - rewrite (bind_ok _ _ E). cbn [effects].
    apply Tapp; [exact B|]. apply IH; [exact (Forall_inv_tail HW)|].
    destruct S as (_ & _ & _ & S).
    destruct (signalled (iter env i) wp).
    + destruct S as ((y & pre & Hy & _) & _). discriminate.
    + apply S.
  - rewrite (bind_raise _ _ E). exact B.
Qed.

(** The same for a whole session, with the events around the loop. *)
Lemma session_emits (T : list event -> Prop) (W : waypoint -> Prop) env s :
  T [] ->
  (forall a b, T a -> T b -> T (a ++ b)) ->
  T [Sleep 5] -> T [Spin] -> T (shutdown_events (shutdown_date env)) ->
  (forall s', T (map LogWrite (summary env (start_now env) s'))) ->
  (forall i wp s', W wp -> live s' ->
     T (effects (loop_body (shutdown_date env) (iter env i) wp s'))) ->
  Forall W (waypoints s) -> live s ->
  T (effects (session env s)).
Proof.
  intros Tnil Tapp Tsleep Tspin Tshut Tsum Tbody HW H.
  pose proof (loop_emits T W env Tnil Tapp Tbody (waypoints s) 0 _ HW
                (live_set_start_time (Some (start_now env)) s H)) as L.
  rewrite (session_result env s H). cbv zeta. fold (session_loop env s) in L.
  destruct (warmup_signal env); [|destruct (loop_signalled env 0 (waypoints s))];
    cbn [effects].
  - apply (Tapp [Sleep 5] _ Tsleep Tshut).
  - apply (Tapp [Sleep 5] _ Tsleep L).
  - apply (Tapp [Sleep 5] _ Tsleep). apply Tapp.
    + apply Tapp; [exact L | apply Tsum].
    + apply (Tapp [Spin] _ Tspin Tshut).
Qed.

(** ** Further properties of the node *)

Lemma flushed_app a : forall b,
  flushed a = true -> flushed b = true -> flushed (a ++ b) = true.
Proof.
  assert (G : forall n a, (List.length a <= n)%nat -> forall b,
            flushed a = true -> flushed b = true -> flushed (a ++ b) = true).
  { induction n as [|n IH]; intros l Hn b Ha Hb.
    - destruct l; [exact Hb | cbn in Hn; lia].
    - destruct l as [|e l]; [exact Hb|]. cbn [List.length] in Hn.
      destruct e as [ | | [r|t] | | | | | | | ];
        try (cbn in *; apply IH; [lia | exact Ha | exact Hb]).
      destruct l as [|e' l]; [discriminate|].
      destruct e'; try discriminate.
      cbn in *. apply IH; [lia | exact Ha | exact Hb]. }
  intros b. apply (G (List.length a) a (le_n _)).
Qed.


(** X2.  One goal is in flight at a time: among the events of the action
    client in a session, every [send_goal] is followed by its
    [wait_for_result], with the timeout of 60 seconds, before the next
    goal is sent; the goals are those of [goals_sent], in order. *)
Theorem X2_one_goal_in_flight env s :
  live s ->
  filter is_exchange (effects (session env s))
  = flat_map exchange (goals_sent (effects (session env s))).
Proof.
  intro H.
  apply (session_emits
           (fun tr => filter is_exchange tr = flat_map exchange (goals_sent tr))
           (fun _ => True) env s);
    try reflexivity; try assumption.
  - intros a b Ha Hb.
    rewrite filter_app, goals_sent_app, flat_map_app, Ha, Hb. reflexivity.
  - intros i wp s' _ H'.
    body_split (shutdown_date env) (iter env i) wp H'; reflexivity.
  - apply Forall_forall. trivial.
Qed.

Lemma of_route_more ws ws' r :
  incl ws ws' -> of_route ws r -> of_route ws' r.
Proof.
  intros Hi (Hv & wp & Hin & Hr). split; [exact Hv|].
  exists wp. split; [apply Hi; exact Hin | exact Hr].
Qed.

Lemma session_rows_of_route env s :
  live s ->
  Forall (of_route (waypoints s)) (rows (effects (session env s))).
Proof.
  intro H.
  apply (session_emits
           (fun tr => Forall (of_route (waypoints s)) (rows tr))
           (fun wp => In wp (waypoints s)) env s);
    try (apply Forall_nil); try assumption.
  - intros a b Ha Hb. rewrite rows_app. apply Forall_app. auto.
  - intros s'. apply Forall_nil.
  - intros i wp s' Hin H'.
    assert (R : forall e st s0,
              In st vocabulary ->
              of_route (waypoints s) (entry_at e wp st s0)).
    { intros e st s0 Hst. split; [exact Hst|].
      exists wp. split; [exact Hin | repeat split]. }
    body_split (shutdown_date env) (iter env i) wp H'; cbn [effects];
      unfold dispatch, row; cbn [app rows log_writes entries];
      repeat (apply Forall_cons; [apply R; cbn; auto 6|]); apply Forall_nil.
  - apply Forall_forall. auto.
Qed.

(** X3.  Every row of a session records a waypoint of the route: its name
    is the first 30 characters of the waypoint's label, its target is the
    waypoint's coordinates, and its status is one of "Goal Sent",
    "Reached", "Pause Complete", "Timeout" and "Failed". *)
Theorem X3_rows_of_route env s :
  live s ->
  Forall (of_route (waypoints s)) (rows (effects (session env s))).
Proof. apply session_rows_of_route. Qed.

Lemma count_status_app st a b :
  count_status st (a ++ b) = (count_status st a + count_status st b)%Z.
Proof.
  unfold count_status. rewrite rows_app, filter_app, length_app. lia.
Qed.

(** What the rows of a trace say of the statistics. *)
Lemma body_counts date e wp s :
  live s ->
  let o := loop_body date e wp s in
  (waypoints_reached (after o)
   = waypoints_reached s + count_status "Reached" (effects o))%Z
  /\ (waypoints_failed (after o)
      = waypoints_failed s + count_status "Timeout" (effects o)
        + count_status "Failed" (effects o))%Z
  /\ count_status "Goal Sent" (effects o) = 1%Z.
Proof.
  intros H. cbv zeta. body_split date e wp H; cbn [after effects];
    unfold count_status; cbn; open_state s; cbn; repeat split; lia.
Qed.

Lemma loop_counts env ws : forall i s,
  live s ->
  let o := navigate_loop env i ws s in
  (waypoints_reached (after o)
   = waypoints_reached s + count_status "Reached" (effects o))%Z
  /\ (waypoints_failed (after o)
      = waypoints_failed s + count_status "Timeout" (effects o)
        + count_status "Failed" (effects o))%Z
  /\ count_status "Goal Sent" (effects o)
     = Z.of_nat (List.length (goals_sent (effects o))).
Proof.
  induction ws as [|wp rest IH]; intros i s H; cbv zeta.
  - cbn. repeat split; lia.
  - cbn [navigate_loop].
    pose proof (body_counts (shutdown_date env) (iter env i) wp s H) as C.
    pose proof (body_spec (shutdown_date env) (iter env i) wp s H) as Sp.
    cbv zeta in C, Sp.
    destruct (loop_body (shutdown_date env) (iter env i) wp s)
      as [[[]|x] s1 ev1] eqn:E; cbn [res after effects] in *.
    + rewrite (bind_ok _ _ E). cbn [res after effects].
      destruct Sp as (_ & _ & Sg & Sb).
      assert (Hl : live s1).
      { destruct (signalled (iter env i) wp); [|apply Sb].
        destruct Sb as ((y & pre & Hy & _) & _). discriminate. }
      specialize (IH (S i) s1 Hl). cbv zeta in IH.
      rewrite !count_status_app, goals_sent_app, length_app, Sg.
      cbn [List.length]. lia.
    + rewrite (bind_raise _ _ E). cbn [res after effects].
      destruct Sp as (_ & _ & Sg & _). rewrite Sg. cbn [List.length]. lia.
Qed.


(** X5.  A goal that ends in any state but SUCCEEDED is a failure: the
    turn writes a "Failed" row after the "Goal Sent" row, adds one to
    [failed] and leaves [reached], neither sleeps nor cancels, and the loop
    goes on with the next waypoint. *)
Theorem X5_failed_goal env i wp rest s :
  live s ->
  wait_signal (iter env i) = false ->
  wait_done (iter env i) = true ->
  wait_state (iter env i) <> SUCCEEDED ->
  let e := iter env i in
  let o := loop_body (shutdown_date env) e wp s in
  res o = Ok tt
  /\ map status (rows (effects o)) = ["Goal Sent"; "Failed"]
  /\ goals_sent (effects o) = [goal_of e wp]
  /\ count is_sleep (effects o) = 0%nat
  /\ count is_cancel (effects o) = 0%nat
  /\ waypoints_failed (after o) = (waypoints_failed s + 1)%Z
  /\ waypoints_reached (after o) = waypoints_reached s
  /\ let next := navigate_loop env (S i) rest (after o) in
     navigate_loop env i (wp :: rest) s
     = {| res := res next; after := after next;
          effects := effects o ++ effects next |}.
Proof.
  intros H Hs Hd Hst. cbv zeta.
  assert (Ho : outcome_of (iter env i) = Failed).
  { unfold outcome_of. rewrite Hd. cbn.
    destruct (status_eqb (wait_state (iter env i)) SUCCEEDED) eqn:E;
      [|reflexivity].
    apply status_eqb_eq in E. contradiction. }
  pose proof (body_failed (shutdown_date env) (iter env i) wp s H Hs Ho) as B.
  rewrite B. cbn [res after effects].
  repeat split; try (open_state s; reflexivity).
  cbn [navigate_loop]. rewrite (bind_ok _ _ B). reflexivity.
Qed.

Lemma goals_of_app env pre post : forall i,
  goals_of env i (pre ++ post)
  = goals_of env i pre ++ goals_of env (i + List.length pre) post.
Proof.
  induction pre as [|wp pre IH]; intro i; cbn [app goals_of List.length].
  - rewrite Nat.add_0_r. reflexivity.
  - rewrite IH. replace (S i + List.length pre)%nat
      with (i + S (List.length pre))%nat by lia. reflexivity.
Qed.


Lemma body_writes date e wp s :
  live s ->
  let tr := effects (loop_body date e wp s) in
  log_writes tr
  = map Entry (rows tr)
    ++ (if signalled e wp then [Text (shutdown_marker date)] else []).
Proof.
  intros H. cbv zeta. body_split date e wp H; reflexivity.
Qed.

Lemma loop_writes env ws : forall i s,
  live s ->
  let tr := effects (navigate_loop env i ws s) in
  log_writes tr
  = map Entry (rows tr)
    ++ (if loop_signalled env i ws
        then [Text (shutdown_marker (shutdown_date env))] else []).
Proof.
  induction ws as [|wp rest IH]; intros i s H; cbv zeta; [reflexivity|].
  cbn [navigate_loop loop_signalled].
  pose proof (body_writes (shutdown_date env) (iter env i) wp s H) as Wb.
  pose proof (body_spec (shutdown_date env) (iter env i) wp s H) as Sp.
  cbv zeta in Wb, Sp.
  destruct (loop_body (shutdown_date env) (iter env i) wp s)
    as [r1 s1 ev1] eqn:E; cbn [res after effects] in *.
  destruct Sp as (_ & _ & _ & Sb).
  destruct (signalled (iter env i) wp); cbn [orb].
  - destruct Sb as ((x & pre & Hx & _) & _). subst r1.
    rewrite (bind_raise _ _ E). exact Wb.
  - destruct Sb as (Hr & Hl & _). subst r1.
    rewrite (bind_ok _ _ E). cbn [effects].
    specialize (IH (S i) s1 Hl). cbv zeta in IH.
    rewrite log_writes_app, rows_app, map_app, Wb, IH, app_nil_r, app_assoc.
    reflexivity.
Qed.

Lemma summary_stopped env t0 s : summary env t0 (stopped s) = summary env t0 s.
Proof. destruct s. reflexivity. Qed.

Lemma session_writes env s :
  live s ->
  let o := session env s in
  log_writes (effects o)
  = map Entry (rows (effects o))
    ++ (if interrupted env (waypoints s) then []
        else summary env (start_now env) (after o))
    ++ [Text (shutdown_marker (shutdown_date env))].
Proof.
  intros H. cbv zeta.
  pose proof (loop_writes env (waypoints s) 0 _
                (live_set_start_time (Some (start_now env)) s H)) as L.
  cbv zeta in L. fold (session_loop env s) in L.
  rewrite (session_result env s H). cbv zeta. unfold interrupted.
  destruct (warmup_signal env); [reflexivity|]. cbn [orb].
  destruct (loop_signalled env 0 (waypoints s)); cbn [after effects].
  - exact L.
  - rewrite summary_stopped.
    change (Sleep 5 :: ?l) with ([Sleep 5] ++ l).
    rewrite !log_writes_app, !rows_app, !map_app, L, app_nil_r.
    set (sm := summary env (start_now env) (after (session_loop env s))).
    change (log_writes [Sleep 5]) with (@nil written).
    change (rows [Sleep 5]) with (@nil log_entry).
    change (rows (map LogWrite sm)) with (@nil log_entry).
    change (rows (Spin :: shutdown_events (shutdown_date env)))
      with (@nil log_entry).
    change (log_writes (Spin :: shutdown_events (shutdown_date env)))
      with [Text (shutdown_marker (shutdown_date env))].
    replace (log_writes (map LogWrite sm)) with sm by reflexivity.
    cbn [map app]. rewrite !app_nil_r, <- app_assoc. reflexivity.
Qed.


(** X8.  On a node whose log file exists the shutdown hook never raises: it
    cancels the goals once and leaves the log closed.  If the log was open
    it first writes the marker and closes; if it was closed already it
    touches nothing of the node.  A further call only cancels the goals
    again. *)
Theorem X8_shutdown_hook_is_safe date s :
  log_file s <> None ->
  let o := shutdown_hook date s in
  res o = Ok tt
  /\ log_is_open (after o) = false
  /\ count is_cancel (effects o) = 1%nat
  /\ (log_is_open s = true -> effects o = shutdown_events date)
  /\ (log_is_open s = false -> effects o = [CancelAllGoals] /\ after o = s)
  /\ shutdown_hook date (after o)
     = {| res := Ok tt; after := after o; effects := [CancelAllGoals] |}.
Proof.
  intros Hf. cbv zeta.
  destruct s as [ws od [[p []]|] r f st hk sd]; [| |contradiction];
    repeat split; try reflexivity; try (intros; easy).
Qed.

(** X9.  [main] lets no exception escape: whatever the file system and the
    environment do, the process ends normally and shut down, and with the
    log closed; no log stays open, not even when the constructor failed. *)
Theorem X9_main_never_raises os env :
  res (run os env) = Ok tt
  /\ is_shutdown (after (run os env)) = true
  /\ log_is_open (after (run os env)) = false.
Proof.
  destruct (res (CornerNavigator_init os blank)) as [[]|x] eqn:Hinit.
  - destruct (main_spec os env Hinit) as (_ & R). rewrite R.
    cbn [res after].
    destruct (session_spec env _ (live_constructed os))
      as (H1 & H2 & H3 & _).
    auto.
  - unfold run, main.
    rewrite (bind_ok _ _ (try_except_spec _ _)).
    destruct (CornerNavigator_init os blank) as [r s1 ev] eqn:E.
    cbn [res] in Hinit. subst r. rewrite (bind_raise _ _ E).
    cbn [res after effects].
    assert (Hs : s1 = set_current_odom None (set_waypoints route blank)).
    { rewrite init_spec in E.
      destruct (creatable os (log_dir os));
        [destruct (open_ok os (log_filename os)); [discriminate|]|];
        inversion E; reflexivity. }
    subst s1. repeat split.
Qed.

Lemma init_opens_nothing os :
  creatable os (log_dir os) = true ->
  open_ok os (log_filename os) = false ->
  CornerNavigator_init os blank
  = {| res := Raise OSError;
       after := set_current_odom None (set_waypoints route blank);
       effects := (if path_exists os (log_dir os) then []
                   else [MakeDirs (log_dir os)])
                  ++ [OpenLog (log_filename os)] |}.
Proof. intros Hc Ho. rewrite init_spec, Hc, Ho. reflexivity. Qed.


Lemma latest_last msgs m cur : latest (msgs ++ [m]) cur = Some m.
Proof. unfold latest. rewrite fold_left_app. reflexivity. Qed.

(** X11.  The odometry cell holds the last message only: when messages
    have arrived before a call of [log_waypoint], the row shows the
    position of the most recent one, whatever came before, and that
    message stays in the cell. *)
Theorem X11_latest_odometry_wins e msgs m n x y st s :
  log_is_open s = true ->
  odom_msgs e = msgs ++ [m] ->
  let o := log_at e n x y st s in
  res o = Ok tt
  /\ current_odom (after o) = Some m
  /\ exists r,
       effects o = [LogWrite (Entry r); LogFlush]
       /\ actual r = Some (position_x m, position_y m)
       /\ status r = st /\ target_x r = x /\ target_y r = y.
Proof.
  intros Ho Hm. cbv zeta. unfold log_at.
  rewrite (bind_ok _ _ (odom_feed_spec (odom_msgs e) s)), Hm.
  cbn [res after effects app]. unfold heard. rewrite latest_last.
  destruct s as [ws od [[p []]|] r f st0 hk sd]; try discriminate.
  split; [reflexivity|]. split; [reflexivity|].
  eexists. split; [reflexivity|]. repeat split.
Qed.

Lemma length_append (a b : string) :
  String.length (a ++ b)%string = (String.length a + String.length b)%nat.
Proof. induction a as [|c a IH]; cbn; [reflexivity | rewrite IH; reflexivity]. Qed.

Lemma length_spaces n : String.length (Py.spaces n) = n.
Proof. induction n as [|n IH]; cbn; [reflexivity | rewrite IH; reflexivity]. Qed.

Lemma length_ljust w s :
  String.length (Py.ljust w s) = Nat.max w (String.length s).
Proof. unfold Py.ljust. rewrite length_append, length_spaces. lia. Qed.

Lemma length_slice_to n : forall s,
  String.length (Py.slice_to n s) = Nat.min n (String.length s).
Proof.
  unfold Py.slice_to. induction n as [|n IH]; intros [|c s]; cbn;
    try reflexivity.
  rewrite IH. reflexivity.
Qed.

Lemma slice_to_prefix n : forall s, prefix (Py.slice_to n s) s = true.
Proof.
  unfold Py.slice_to. induction n as [|n IH]; intros [|c s]; cbn;
    try reflexivity.
  rewrite IH. destruct (ascii_dec c c); [reflexivity | contradiction].
Qed.

Lemma slice_to_short n : forall s,
  (String.length s <= n)%nat -> Py.slice_to n s = s.
Proof.
  unfold Py.slice_to. induction n as [|n IH]; intros [|c s] H; cbn in *;
    try reflexivity; try lia.
  rewrite IH by lia. reflexivity.
Qed.

(** X12.  The name and status columns have fixed widths: every row of a
    session names its waypoint by a prefix of the waypoint's label of at
    most 30 characters (the whole label when it has no more), padded to
    exactly 30 characters in the row, and its status fills exactly 15. *)
Theorem X12_fixed_columns env s :
  live s ->
  Forall (fun r =>
            (String.length (name r) <= 30)%nat
            /\ String.length (Py.ljust 30 (name r)) = 30%nat
            /\ String.length (Py.ljust 15 (status r)) = 15%nat
            /\ exists wp,
                 In wp (waypoints s)
                 /\ prefix (name r) (wp_name wp) = true
                 /\ ((String.length (wp_name wp) <= 30)%nat ->
                     name r = wp_name wp))
         (rows (effects (session env s))).
Proof.
  intro H. eapply Forall_impl; [|exact (session_rows_of_route env s H)].
  intros r (Hv & wp & Hin & Hn & _).
  rewrite !length_ljust, Hn, length_slice_to.
  split; [lia|]. split; [lia|]. split.
  - cbn in Hv. destruct Hv as [<-|[<-|[<-|[<-|[<-|[]]]]]]; reflexivity.
  - exists wp. split; [exact Hin|].
    split; [apply slice_to_prefix | apply slice_to_short].
Qed.
(** X13.  The node sleeps only to warm up and to pause: a session begins
    with the warm-up of 5 seconds, before any goal is sent, and every
    later sleep is the pause of a waypoint of the route whose pause is
    positive, for exactly that duration. *)
Theorem X13_sleeps env s :
  live s ->
  exists tail,
    effects (session env s) = Sleep 5 :: tail
    /\ Forall (fun e => forall d, e = Sleep d ->
                 exists wp, In wp (waypoints s)
                            /\ d = wp_pause wp /\ (0 <? d)%float = true)
              tail.
Proof.
  intro H.
  set (P := fun e => forall d, e = Sleep d ->
              exists wp, In wp (waypoints s)
                         /\ d = wp_pause wp /\ (0 <? d)%float = true).
  assert (N : forall tr, forallb (fun e => negb (is_sleep e)) tr = true ->
                         Forall P tr).
  { induction tr as [|e tr IH]; cbn; intro Hn; [constructor|].
    apply andb_prop in Hn. destruct Hn as (He & Ht).
    constructor; [|exact (IH Ht)].
    intros d ->. discriminate. }
  assert (L : Forall P (effects (session_loop env s))).
  { apply (loop_emits (Forall P) (fun wp => In wp (waypoints s)) env).
    - constructor.
    - intros a b Ha Hb. apply Forall_app. auto.
    - intros i wp s' Hin H'.
      body_split (shutdown_date env) (iter env i) wp H'; cbn [effects];
        try (apply N; reflexivity).
      + rewrite !app_assoc. apply Forall_app. split; [|apply N; reflexivity].
        apply Forall_app. split; [apply N; reflexivity|].
        constructor; [|constructor].
        intros d Hsl. inversion Hsl. subst d. exists wp. auto.
      + rewrite !app_assoc. apply Forall_app. split; [|apply N; reflexivity].
        apply Forall_app. split; [apply N; reflexivity|].
        constructor; [|constructor].
        intros d Hsl. inversion Hsl. subst d. exists wp. auto.
    - apply Forall_forall. auto.
    - apply (live_set_start_time (Some (start_now env)) s H). }
  rewrite (session_result env s H). cbv zeta.
  destruct (warmup_signal env); [|destruct (loop_signalled env 0 (waypoints s))];
    eexists; (split; [reflexivity|]).
  - apply N. reflexivity.
  - exact L.
  - apply Forall_app. split; [|apply N; reflexivity].
    apply Forall_app. split; [exact L | apply N; reflexivity].
Qed.

End Node.

(** * The sample runs *)

Lemma live_demo_node : live demo_node.
Proof. repeat split. Defined.

Lemma live_demo_three : live demo_three.
Proof. repeat split. Defined.

Lemma live_demo_empty : live demo_empty.
Proof. repeat split. Defined.

Lemma demo_constructor_succeeds :
  res (CornerNavigator_init demo_os blank) = Ok tt.
Proof. reflexivity. Defined.





Lemma C4_timeout_witness :
  live demo_node
  /\ wait_signal (iter demo_one_timeout 1) = false
  /\ outcome_of (iter demo_one_timeout 1) = TimedOut
  /\ waypoints_failed
       (after (loop_body demo_sin demo_cos (shutdown_date demo_one_timeout)
                 (iter demo_one_timeout 1) demo_corner demo_node)) = 1%Z
  /\ count is_cancel
       (effects (loop_body demo_sin demo_cos (shutdown_date demo_one_timeout)
                   (iter demo_one_timeout 1) demo_corner demo_node)) = 0%nat.
Proof.
  split; [exact live_demo_node|]. split; [reflexivity|]. split; [reflexivity|].
  destruct (C4_timeout demo_sin demo_cos demo_one_timeout 1 demo_corner []
              demo_node live_demo_node eq_refl eq_refl)
    as (_ & _ & _ & _ & Hc & Hf & _).
  split; [exact Hf | exact Hc].
Defined.

Lemma C5_outcomes_witness :
  live demo_node
  /\ map status
       (rows (effects (loop_body demo_sin demo_cos "2024-03-05 10:30:00"
                         (iter demo_silent 0) (demo_wp 0.5 0.5 "A")
                         demo_node)))
     = ["Goal Sent"; "Reached"].
Proof.
  split; [exact live_demo_node|].
  destruct (C5_outcomes demo_sin demo_cos "2024-03-05 10:30:00"
              (iter demo_silent 0) (demo_wp 0.5 0.5 "A") demo_node
              live_demo_node) as (_ & R & _).
  destruct (R eq_refl eq_refl (or_introl eq_refl)) as (_ & Hrows & _).
  exact Hrows.
Defined.


(** C7, as stated, fails: the package's log directory cannot be created,
    the one under the home directory could, and the constructor raises
    without having tried it. *)
Lemma C7_counterexample :
  creatable demo_os_readonly (log_dir demo_os_readonly) = false
  /\ creatable demo_os_readonly (expanduser demo_os_readonly home_logs) = true
  /\ res (CornerNavigator_init demo_os_readonly blank) = Raise OSError
  /\ effects (run demo_sin demo_cos demo_os_readonly demo_all_reached)
     = [MakeDirs (log_dir demo_os_readonly)].
Proof. repeat split. Qed.

Lemma C7_log_directory_witness :
  creatable demo_os_readonly (log_dir demo_os_readonly) = false
  /\ res (CornerNavigator_init demo_os_readonly blank) = Raise OSError
  /\ log_is_open
       (after (run demo_sin demo_cos demo_os_readonly demo_all_reached))
     = false.
Proof.
  split; [reflexivity|].
  destruct (C7_log_directory demo_sin demo_cos demo_os_readonly
              demo_all_reached) as (_ & _ & R & _).
  destruct (R eq_refl) as (Hr & _ & Ho).
  split; [exact Hr | exact Ho].
Defined.

Lemma C8_goal_witness :
  live demo_three
  /\ goals_sent (effects (session demo_sin demo_cos demo_all_reached
                            demo_three))
     = goals_of demo_sin demo_cos demo_all_reached 0 (waypoints demo_three).
Proof.
  split; [exact live_demo_three|].
  destruct (C8_goal demo_sin demo_cos demo_all_reached demo_three
              live_demo_three) as (_ & _ & _ & R).
  exact (R eq_refl).
Defined.


Lemma C10_reached_before_dwell_witness :
  live demo_node
  /\ wait_signal (iter demo_signal_in_pause 2) = false
  /\ outcome_of (iter demo_signal_in_pause 2) = Succeeded
  /\ (0 <? wp_pause demo_corner)%float = true
  /\ res (loop_body demo_sin demo_cos (shutdown_date demo_signal_in_pause)
            (iter demo_signal_in_pause 2) demo_corner demo_node)
     = Raise ROSInterruptException
  /\ waypoints_reached
       (after (loop_body demo_sin demo_cos
                 (shutdown_date demo_signal_in_pause)
                 (iter demo_signal_in_pause 2) demo_corner demo_node)) = 1%Z.
Proof.
  split; [exact live_demo_node|]. split; [reflexivity|]. split; [reflexivity|].
  split; [reflexivity|].
  destruct (C10_reached_before_dwell demo_sin demo_cos demo_signal_in_pause 2
              demo_corner [] demo_node live_demo_node eq_refl eq_refl eq_refl)
    as (_ & Hr & _ & R & _).
  split; [exact (proj1 (R eq_refl)) | exact Hr].
Defined.

(** The scenarios of a route of three waypoints without pauses. *)

Example all_reached_rows :
  map status (rows (effects (session demo_sin demo_cos demo_silent demo_three)))
  = ["Goal Sent"; "Reached"; "Goal Sent"; "Reached"; "Goal Sent"; "Reached"].
Proof. reflexivity. Qed.

Example all_reached_footer :
  let o := session demo_sin demo_cos demo_silent demo_three in
  waypoints_reached (after o) = 3%Z /\ waypoints_failed (after o) = 0%Z
  /\ In (LogWrite (Text ("Success Rate: 100.0%" ++ nl))) (effects o).
Proof. vm_compute. repeat split. repeat first [left; reflexivity | right]. Qed.

Example one_timeout_footer :
  let o := session demo_sin demo_cos demo_one_timeout demo_three in
  waypoints_reached (after o) = 2%Z /\ waypoints_failed (after o) = 1%Z
  /\ In (LogWrite (Text ("Success Rate: 66.7%" ++ nl))) (effects o).
Proof. vm_compute. repeat split. repeat first [left; reflexivity | right]. Qed.

Example format_f_rounds_half_even :
  Py.format_f 2 0.125 = "0.12" /\ Py.format_f 1 0.25 = "0.2"
  /\ Py.format_f 2 2.675 = "2.67" /\ Py.format_f 2 (-0.001) = "-0.00".
Proof. repeat split. Qed.


(** * The sample runs, further *)


Lemma X2_one_goal_in_flight_witness :
  live demo_three
  /\ filter is_exchange
       (effects (session demo_sin demo_cos demo_one_timeout demo_three))
     = flat_map exchange
         (goals_sent
            (effects (session demo_sin demo_cos demo_one_timeout demo_three))).
Proof.
  split; [exact live_demo_three|].
  exact (X2_one_goal_in_flight demo_sin demo_cos demo_one_timeout demo_three
           live_demo_three).
Defined.

Lemma X3_rows_of_route_witness :
  live demo_three
  /\ Forall (of_route (waypoints demo_three))
       (rows (effects (session demo_sin demo_cos demo_one_timeout
                         demo_three))).
Proof.
  split; [exact live_demo_three|].
  exact (X3_rows_of_route demo_sin demo_cos demo_one_timeout demo_three
           live_demo_three).
Defined.


Lemma X5_failed_goal_witness :
  live demo_node
  /\ wait_signal (iter demo_one_aborted 3) = false
  /\ wait_done (iter demo_one_aborted 3) = true
  /\ wait_state (iter demo_one_aborted 3) <> SUCCEEDED
  /\ map status
       (rows (effects (loop_body demo_sin demo_cos
                         (shutdown_date demo_one_aborted)
                         (iter demo_one_aborted 3) demo_corner demo_node)))
     = ["Goal Sent"; "Failed"].
Proof.
  assert (Hn : wait_state (iter demo_one_aborted 3) <> SUCCEEDED)
    by (intro E; discriminate E).
  split; [exact live_demo_node|]. split; [reflexivity|]. split; [reflexivity|].
  split; [exact Hn|].
  exact (proj1 (proj2 (X5_failed_goal demo_sin demo_cos demo_one_aborted 3
                         demo_corner [] demo_node live_demo_node
                         eq_refl eq_refl Hn))).
Defined.



Lemma X8_shutdown_hook_is_safe_witness :
  log_file demo_node <> None
  /\ res (shutdown_hook "2024-03-05 10:30:00" demo_node) = Ok tt
  /\ log_is_open (after (shutdown_hook "2024-03-05 10:30:00" demo_node))
     = false.
Proof.
  assert (Hf : log_file demo_node <> None) by (intro E; discriminate E).
  split; [exact Hf|].
  destruct (X8_shutdown_hook_is_safe "2024-03-05 10:30:00" demo_node Hf)
    as (H1 & H2 & _).
  split; [exact H1 | exact H2].
Defined.


Lemma X11_latest_odometry_wins_witness :
  log_is_open demo_node = true
  /\ current_odom
       (after (log_at {| odom_msgs := [demo_odom] ++
                           [{| position_x := 1.25; position_y := 2.5 |}];
                         now := demo_clock 130 |}
                 "Corner 1" 0.5 0.5 "Reached" demo_node))
     = Some {| position_x := 1.25; position_y := 2.5 |}.
Proof.
  split; [reflexivity|].
  exact (proj1 (proj2
           (X11_latest_odometry_wins
              {| odom_msgs := [demo_odom] ++
                   [{| position_x := 1.25; position_y := 2.5 |}];
                 now := demo_clock 130 |}
              [demo_odom] {| position_x := 1.25; position_y := 2.5 |}
              "Corner 1" 0.5 0.5 "Reached" demo_node eq_refl eq_refl))).
Defined.

Lemma X12_fixed_columns_witness :
  live demo_node
  /\ Forall (fun r => String.length (Py.ljust 30 (name r)) = 30%nat)
       (rows (effects (session demo_sin demo_cos demo_all_reached demo_node))).
Proof.
  split; [exact live_demo_node|].
  eapply Forall_impl;
    [|exact (X12_fixed_columns demo_sin demo_cos demo_all_reached demo_node
               live_demo_node)].
  intros r (_ & H & _). exact H.
Defined.

Lemma X13_sleeps_witness :
  live demo_node
  /\ exists tail,
       effects (session demo_sin demo_cos demo_all_reached demo_node)
       = Sleep 5 :: tail.
Proof.
  split; [exact live_demo_node|].
  destruct (X13_sleeps demo_sin demo_cos demo_all_reached demo_node
              live_demo_node) as (tail & E & _).
  exists tail. exact E.
Defined.

(** An existing log directory is not made again. *)
Example existing_directory_is_kept :
  effects (CornerNavigator_init demo_os_existing blank)
  = OpenLog (log_filename demo_os_existing)
    :: map LogWrite (header (start_date demo_os_existing)).
Proof. reflexivity. Qed.
